(** * multi_account_trader: allocation resolution and order fan-out

    A shallow embedding of [bond-stock-portfolio/multi_account_trader.py].

    Numeric model.  Python's [float] values (equity, cash, percentages,
    notionals, prices) are modelled by exact rationals [Q]: products,
    comparisons, [min], floor division and rounding are the exact
    operations, so rounding error, infinities and NaN are outside the
    model.  Exceptions are explicit: a call either returns or raises.

    Effects.  The three remote operations of the brokerage client
    ([get_account], [get_latest_trade], [submit_order]) act on a client
    state [W]; the executor is written in a state-and-exception monad that
    also records every remote call and every log record in a trace.

    Concurrency.  Every account task builds its own client and shares no
    state with the other tasks, so the fan-out is the list of the task
    outcomes combined by [gather]; the order in which the tasks complete is
    a parameter of [gather]. *)

From Stdlib Require Import List String Ascii Bool ZArith QArith Qround Qminmax Lia Lqa.
Import ListNotations.
Open Scope string_scope.

(** ** Python values and built-ins *)

Inductive Exception : Type :=
| APIError (msg : string)
| OtherError (msg : string)
| ZeroDivisionError.

(** [str(exc)] *)
Definition str_exc (e : Exception) : string :=
  match e with
  | APIError msg => msg
  | OtherError msg => msg
  | ZeroDivisionError => "float floor division by zero"
  end.

Inductive Outcome (A : Type) : Type :=
| Returned (a : A)
| Raised (e : Exception).
Arguments Returned {A} a.
Arguments Raised {A} e.

Definition Qltb (x y : Q) : bool := negb (Qle_bool y x).

(** truth value of a float: false exactly for zero *)
Definition truthy (x : Q) : bool := negb (Qeq_bool x 0).

(** [min(a, b)] keeps its first argument unless the second is smaller *)
Definition py_min (a b : Q) : Q := if Qltb b a then b else a.

(** [a // b] on floats *)
Definition py_floordiv (a b : Q) : Outcome Q :=
  if Qeq_bool b 0 then Raised ZeroDivisionError
  else Returned (inject_Z (Qfloor (a / b))).

(** [int(x)]: truncation toward zero *)
Definition py_int (x : Q) : Z := Z.quot (Qnum x) (Zpos (Qden x)).

(** nearest integer, ties to even *)
Definition round_half_even (x : Q) : Z :=
  let f := Qfloor x in
  let r := x - inject_Z f in
  if Qltb r (1 # 2) then f
  else if Qltb (1 # 2) r then (f + 1)%Z
  else if Z.even f then f else (f + 1)%Z.

(** [round(x, 2)] in the exact-number model: the decimal with two places
    nearest to [x], ties to even; Python returns the double nearest to that
    decimal, which the model does not distinguish from it *)
Definition py_round2 (x : Q) : Q := Qmake (round_half_even (x * 100)) 100.

Definition digit_char (d : Z) : ascii :=
  ascii_of_nat (48 + Z.to_nat d).

Fixpoint digits_fuel (fuel : nat) (n : Z) (acc : string) : string :=
  match fuel with
  | O => acc
  | S fuel' =>
      let acc' := String (digit_char (n mod 10)) acc in
      if (n / 10 =? 0)%Z then acc' else digits_fuel fuel' (n / 10) acc'
  end.

(** decimal digits of a natural number given as [Z] *)
Definition str_nat (n : Z) : string :=
  digits_fuel (S (Z.to_nat (Z.log2 n))) n "".

(** [format(x, ".2f")] *)
Definition format_2f (x : Q) : string :=
  let c := Z.abs (round_half_even (x * 100)) in
  (if Qltb x 0 then "-" else "") ++
  str_nat (c / 100) ++ "." ++
  String (digit_char ((c / 10) mod 10)) (String (digit_char (c mod 10)) "").

(** ** Data model *)

Inductive AllocationBasis : Type := equity_basis | cash_basis.
Inductive Side : Type := buy | sell.
Inductive TimeInForce : Type := day | gtc | ioc | fok.

Module OrderAllocation.
Record t : Type := mk {
  symbol : string;
  percentage : Q;
  side : Side;
  time_in_force : TimeInForce;
  allocation_basis : option AllocationBasis;
  min_notional : Q
}.

Definition normalized_basis (self : t) (fallback : AllocationBasis)
  : AllocationBasis :=
  match allocation_basis self with
  | Some b => b
  | None => fallback
  end.
End OrderAllocation.

Module AccountConfig.
Record t : Type := mk {
  name : string;
  key_id : string;
  secret_key : string;
  base_url : string;
  allocation_basis : AllocationBasis;
  max_notional_per_order : option Q;
  allocations : list OrderAllocation.t
}.
End AccountConfig.

(** the account entity returned by [get_account], its two numeric fields
    already converted by [float] *)
Record Account : Type := {
  equity : Q;
  cash : Q
}.

(** keyword arguments of [submit_order] *)
Record Payload : Type := {
  p_symbol : string;
  p_side : Side;
  p_type : string;
  p_time_in_force : TimeInForce;
  p_notional : option Q;
  p_qty : option Z
}.

Inductive SubmittedEntry : Type :=
| DryRunEntry (p : Payload)               (* {**payload, "dry_run": True} *)
| OrderEntry (sym : string) (id : string). (* {"symbol": .., "id": ..} *)

Record SkippedEntry : Type := {
  sk_symbol : string;
  sk_reason : string
}.

Record AccountSummary : Type := {
  account : string;
  submitted : list SubmittedEntry;
  skipped : list SkippedEntry
}.

Definition entry_symbol (e : SubmittedEntry) : string :=
  match e with
  | DryRunEntry p => p_symbol p
  | OrderEntry sym _ => sym
  end.

(** ** Remote calls and the trace *)

Inductive Event : Type :=
| EvGetAccount
| EvGetLatestTrade (sym : string)
| EvSubmitOrder (p : Payload)
| EvLogInfo (acct : string) (dry_run : bool) (sd : Side) (qty : option Z)
            (sym : string) (basis : AllocationBasis) (notional : Q)
| EvLogException (sym acct msg : string).

Definition is_submit (e : Event) : bool :=
  match e with EvSubmitOrder _ => true | _ => false end.

(** the brokerage client: [REST] builds the client state from the
    credentials, the three operations act on it *)
Record Client (W : Type) : Type := {
  REST : string -> string -> string -> W;
  get_account : W -> Outcome Account * W;
  get_latest_trade : string -> W -> Outcome Q * W;
  submit_order : Payload -> W -> Outcome string * W
}.
Arguments REST {W} _ _ _ _.
Arguments get_account {W} _ _.
Arguments get_latest_trade {W} _ _ _.
Arguments submit_order {W} _ _ _.

Record RunState (W : Type) : Type := {
  world : W;
  trace : list Event
}.
Arguments world {W} _.
Arguments trace {W} _.

Definition M (W A : Type) : Type := RunState W -> Outcome A * RunState W.

Definition ret {W A} (a : A) : M W A := fun s => (Returned a, s).

Definition bind {W A B} (m : M W A) (k : A -> M W B) : M W B :=
  fun s =>
    match m s with
    | (Returned a, s') => k a s'
    | (Raised e, s') => (Raised e, s')
    end.

Notation "x <- m ;; k" := (bind m (fun x => k))
  (at level 61, m at next level, right associativity).
Notation "m ;;; k" := (bind m (fun _ => k))
  (at level 61, right associativity).

Definition raise_outcome {W A} (o : Outcome A) : M W A := fun s => (o, s).

Definition emit {W} (e : Event) : M W unit :=
  fun s => (Returned tt, {| world := world s; trace := trace s ++ [e] |}).

Definition remote {W A} (e : Event) (op : W -> Outcome A * W) : M W A :=
  fun s =>
    let (r, w') := op (world s) in
    (r, {| world := w'; trace := trace s ++ [e] |}).

(** [try: body  except APIError as exc: handler] *)
Definition try_except_APIError {W A}
  (body : M W A) (handler : Exception -> M W A) : M W A :=
  fun s =>
    match body s with
    | (Raised (APIError msg), s') => handler (APIError msg) s'
    | r => r
    end.

(** ** The account executor *)

Definition _value_for_basis (acct : Account) (basis : AllocationBasis) : Q :=
  match basis with
  | cash_basis => cash acct
  | equity_basis => equity acct
  end.

Definition add_skipped (s : AccountSummary) (e : SkippedEntry)
  : AccountSummary :=
  {| account := account s;
     submitted := submitted s;
     skipped := skipped s ++ [e] |}.

Definition add_submitted (s : AccountSummary) (e : SubmittedEntry)
  : AccountSummary :=
  {| account := account s;
     submitted := submitted s ++ [e];
     skipped := skipped s |}.

Definition base_payload (alloc : OrderAllocation.t) : Payload :=
  {| p_symbol := OrderAllocation.symbol alloc;
     p_side := OrderAllocation.side alloc;
     p_type := "market";
     p_time_in_force := OrderAllocation.time_in_force alloc;
     p_notional := None;
     p_qty := None |}.

Definition set_notional (p : Payload) (v : Q) : Payload :=
  {| p_symbol := p_symbol p; p_side := p_side p; p_type := p_type p;
     p_time_in_force := p_time_in_force p;
     p_notional := Some v; p_qty := p_qty p |}.

Definition set_qty (p : Payload) (q : Z) : Payload :=
  {| p_symbol := p_symbol p; p_side := p_side p; p_type := p_type p;
     p_time_in_force := p_time_in_force p;
     p_notional := p_notional p; p_qty := Some q |}.

(** lines 109-111: the percentage of the reference value *)
Definition raw_notional (cfg : AccountConfig.t) (acct : Account)
  (alloc : OrderAllocation.t) : Q :=
  let basis :=
    OrderAllocation.normalized_basis alloc (AccountConfig.allocation_basis cfg) in
  let reference_value := _value_for_basis acct basis in
  reference_value * OrderAllocation.percentage alloc.

(** lines 112-113: the notional after the optional cap *)
Definition resolved_notional (cfg : AccountConfig.t) (acct : Account)
  (alloc : OrderAllocation.t) : Q :=
  let notional := raw_notional cfg acct alloc in
  match AccountConfig.max_notional_per_order cfg with
  | Some m => if truthy m then py_min notional m else notional
  | None => notional
  end.

Section Executor.
Context {W : Type}.
Variable rest : Client W.
(** [str] of a float, as the f-strings of the skip reasons use it *)
Variable float_str : Q -> string.

Definition below_min_reason (notional min_notional : Q) : string :=
  "notional " ++ format_2f notional ++ " below min " ++ float_str min_notional.

Definition zero_qty_reason (latest_price : Q) : string :=
  "qty would be 0 with latest price " ++ float_str latest_price.

(** lines 142-167: log, then dry-run record or live submission *)
Definition dispatch (cfg : AccountConfig.t) (dry_run : bool)
  (alloc : OrderAllocation.t) (notional : Q) (payload : Payload)
  (summary : AccountSummary) : M W AccountSummary :=
  let basis :=
    OrderAllocation.normalized_basis alloc (AccountConfig.allocation_basis cfg) in
  emit (EvLogInfo (AccountConfig.name cfg) dry_run (OrderAllocation.side alloc)
          (p_qty payload) (OrderAllocation.symbol alloc) basis notional) ;;;
  if dry_run then ret (add_submitted summary (DryRunEntry payload))
  else
    try_except_APIError
      (id <- remote (EvSubmitOrder payload) (submit_order rest payload) ;;
       ret (add_submitted summary
              (OrderEntry (OrderAllocation.symbol alloc) id)))
      (fun exc =>
         emit (EvLogException (OrderAllocation.symbol alloc)
                 (AccountConfig.name cfg) (str_exc exc)) ;;;
         ret (add_skipped summary
                {| sk_symbol := OrderAllocation.symbol alloc;
                   sk_reason := str_exc exc |})).

(** lines 109-167: one iteration of the loop over [cfg.allocations] *)
Definition process_allocation (cfg : AccountConfig.t)
  (dry_run allow_fractional : bool) (acct : Account)
  (alloc : OrderAllocation.t) (summary : AccountSummary)
  : M W AccountSummary :=
  let notional := resolved_notional cfg acct alloc in
  if Qltb notional (OrderAllocation.min_notional alloc) then
    ret (add_skipped summary
           {| sk_symbol := OrderAllocation.symbol alloc;
              sk_reason :=
                below_min_reason notional (OrderAllocation.min_notional alloc) |})
  else
    let payload := base_payload alloc in
    if allow_fractional then
      dispatch cfg dry_run alloc notional
        (set_notional payload (py_round2 notional)) summary
    else
      latest_price <- remote (EvGetLatestTrade (OrderAllocation.symbol alloc))
                        (get_latest_trade rest (OrderAllocation.symbol alloc)) ;;
      fl <- raise_outcome (py_floordiv notional latest_price) ;;
      let qty := py_int fl in
      if (qty =? 0)%Z then
        ret (add_skipped summary
               {| sk_symbol := OrderAllocation.symbol alloc;
                  sk_reason := zero_qty_reason latest_price |})
      else
        dispatch cfg dry_run alloc notional (set_qty payload qty) summary.

(** the [for alloc in cfg.allocations] loop *)
Fixpoint process_allocations (cfg : AccountConfig.t)
  (dry_run allow_fractional : bool) (acct : Account)
  (allocs : list OrderAllocation.t) (summary : AccountSummary)
  : M W AccountSummary :=
  match allocs with
  | [] => ret summary
  | alloc :: rest_allocs =>
      summary' <- process_allocation cfg dry_run allow_fractional acct
                    alloc summary ;;
      process_allocations cfg dry_run allow_fractional acct rest_allocs summary'
  end.

Definition empty_summary (cfg : AccountConfig.t) : AccountSummary :=
  {| account := AccountConfig.name cfg; submitted := []; skipped := [] |}.

(** the body of [_submit_orders_for_account], run on a given client state *)
Definition account_task (cfg : AccountConfig.t)
  (dry_run allow_fractional : bool) : M W AccountSummary :=
  acct <- remote EvGetAccount (get_account rest) ;;
  process_allocations cfg dry_run allow_fractional acct
    (AccountConfig.allocations cfg) (empty_summary cfg).

Definition _submit_orders_for_account (cfg : AccountConfig.t)
  (dry_run allow_fractional : bool) : Outcome AccountSummary * RunState W :=
  account_task cfg dry_run allow_fractional
    {| world := REST rest (AccountConfig.key_id cfg)
                  (AccountConfig.secret_key cfg) (AccountConfig.base_url cfg);
       trace := [] |}.

(** ** The fan-out coordinator *)

Fixpoint collect {A} (outs : list (Outcome A)) : Outcome (list A) :=
  match outs with
  | [] => Returned []
  | Returned a :: tl =>
      match collect tl with
      | Returned l => Returned (a :: l)
      | Raised e => Raised e
      end
  | Raised e :: _ => Raised e
  end.

(** the exception of the first task, in order of completion, that raised *)
Fixpoint first_raised {A} (completion : list nat) (outs : list (Outcome A))
  : option Exception :=
  match completion with
  | [] => None
  | i :: tl =>
      match nth_error outs i with
      | Some (Raised e) => Some e
      | _ => first_raised tl outs
      end
  end.

(** [asyncio.gather] over the tasks: results in the order of the tasks, or the
    exception of the task that raised first; [completion] lists the task
    indices in the order the tasks finish *)
Definition gather {A} (completion : list nat) (outs : list (Outcome A))
  : Outcome (list A) :=
  match first_raised completion outs with
  | Some e => Raised e
  | None => collect outs
  end.

Definition fan_out_orders (completion : list nat)
  (accounts : list AccountConfig.t) (dry_run allow_fractional : bool)
  : Outcome (list AccountSummary) :=
  gather completion
    (map (fun cfg => fst (_submit_orders_for_account cfg dry_run allow_fractional))
       accounts).


(** ** Vocabulary of the statements *)

Definition client_state (cfg : AccountConfig.t) : W :=
  REST rest (AccountConfig.key_id cfg) (AccountConfig.secret_key cfg)
    (AccountConfig.base_url cfg).

Definition after_snapshot (w : W) : RunState W :=
  {| world := w; trace := [EvGetAccount] |}.

(** the state after the price lookup for [alloc] answered with [w'] *)
Definition after_lookup (alloc : OrderAllocation.t) (s : RunState W) (w' : W)
  : RunState W :=
  {| world := w';
     trace := trace s ++ [EvGetLatestTrade (OrderAllocation.symbol alloc)] |}.

Definition below_min_entry (cfg : AccountConfig.t) (acct : Account)
  (alloc : OrderAllocation.t) : SkippedEntry :=
  {| sk_symbol := OrderAllocation.symbol alloc;
     sk_reason := below_min_reason (resolved_notional cfg acct alloc)
                    (OrderAllocation.min_notional alloc) |}.

Definition zero_qty_entry (alloc : OrderAllocation.t) (price : Q)
  : SkippedEntry :=
  {| sk_symbol := OrderAllocation.symbol alloc;
     sk_reason := zero_qty_reason price |}.

Definition task_outcome (dry_run allow_fractional : bool)
  (cfg : AccountConfig.t) : Outcome AccountSummary :=
  fst (_submit_orders_for_account cfg dry_run allow_fractional).

End Executor.

(** on the client states satisfying [ok], which the operations preserve, the
    snapshot fetch and the price lookups answer (with a nonzero price) and a
    submission either succeeds or raises [APIError] *)
Definition reliable {W : Type} (rest : Client W) (ok : W -> Prop) : Prop :=
  (forall w, ok w ->
     exists acct w', get_account rest w = (Returned acct, w') /\ ok w') /\
  (forall sym w, ok w ->
     exists price w',
       get_latest_trade rest sym w = (Returned price, w') /\
       ~ price == 0 /\ ok w') /\
  (forall p w, ok w ->
     exists w', ok w' /\
       ((exists id, submit_order rest p w = (Returned id, w')) \/
        (exists msg, submit_order rest p w = (Raised (APIError msg), w')))).

Definition entries (r : AccountSummary) : nat :=
  (List.length (submitted r) + List.length (skipped r))%nat.

Definition total_entries (reports : list AccountSummary) : nat :=
  list_sum (map entries reports).

Definition total_allocations (accounts : list AccountConfig.t) : nat :=
  list_sum (map (fun cfg => List.length (AccountConfig.allocations cfg)) accounts).

Definition no_submit (t : list Event) : Prop :=
  Forall (fun e => is_submit e = false) t.

(** on the client states satisfying [ok], which the two read operations
    preserve, the snapshot fetch answers [snap] and the price lookup of
    [sym] answers [prices sym] *)
Definition fixed_answers {W : Type} (rest : Client W) (ok : W -> Prop)
  (snap : Outcome Account) (prices : string -> Outcome Q) : Prop :=
  (forall w, ok w ->
     fst (get_account rest w) = snap /\ ok (snd (get_account rest w))) /\
  (forall sym w, ok w ->
     fst (get_latest_trade rest sym w) = prices sym /\
     ok (snd (get_latest_trade rest sym w))).

(** two runs are in step: same trace so far, both client states admissible *)
Definition in_step {W1 W2 : Type} (ok1 : W1 -> Prop) (ok2 : W2 -> Prop)
  (s1 : RunState W1) (s2 : RunState W2) : Prop :=
  trace s1 = trace s2 /\ ok1 (world s1) /\ ok2 (world s2).

Definition same_result {W1 W2 A : Type} (ok1 : W1 -> Prop) (ok2 : W2 -> Prop)
  (r1 : Outcome A * RunState W1) (r2 : Outcome A * RunState W2) : Prop :=
  fst r1 = fst r2 /\ in_step ok1 ok2 (snd r1) (snd r2).


(** ** A scripted client, for running the executor on concrete inputs *)

Fixpoint frac_digits (fuel : nat) (r d : Z) : string :=
  match fuel with
  | O => ""
  | S fuel' =>
      let r10 := (r * 10)%Z in
      String (digit_char (r10 / d))
        (if (r10 mod d =? 0)%Z then "" else frac_digits fuel' (r10 mod d) d)
  end.

(** a plain decimal rendering: ["200.0"], ["0.5"], ["-1.25"] *)
Definition decimal_str (x : Q) : string :=
  let d := Zpos (Qden x) in
  let a := Z.abs (Qnum x) in
  (if Qltb x 0 then "-" else "") ++
  str_nat (a / d) ++ "." ++ frac_digits 17 (a mod d) d.

Record Script : Type := {
  sc_account : Outcome Account;
  sc_price : string -> Outcome Q;
  sc_submit : Payload -> Outcome string
}.

(** the client whose answers are read off a script chosen by the key id *)
Definition scripted (scripts : string -> Script) : Client Script :=
  {| REST := fun key_id _ _ => scripts key_id;
     get_account := fun w => (sc_account w, w);
     get_latest_trade := fun sym w => (sc_price w sym, w);
     submit_order := fun p w => (sc_submit w p, w) |}.

Definition alloc_of (sym : string) (pct min_n : Q) : OrderAllocation.t :=
  OrderAllocation.mk sym pct buy day None min_n.

Definition config_of (nm : string) (basis : AllocationBasis)
  (cap : option Q) (allocs : list OrderAllocation.t) : AccountConfig.t :=
  AccountConfig.mk nm nm "secret" "https://paper-api.alpaca.markets"
    basis cap allocs.

Definition healthy (eq_v cash_v price : Q) : Script :=
  {| sc_account := Returned {| equity := eq_v; cash := cash_v |};
     sc_price := fun _ => Returned price;
     sc_submit := fun p => Returned ("order-" ++ p_symbol p) |}.

Definition unreachable : Script :=
  {| sc_account := Raised (OtherError "connection refused");
     sc_price := fun _ => Raised (OtherError "connection refused");
     sc_submit := fun _ => Raised (OtherError "connection refused") |}.

(** [needle] occurs in [hay] *)
Definition contains (hay needle : string) : Prop :=
  exists pre post, hay = pre ++ needle ++ post.

(** ** Concrete inputs *)

Definition acct_10k : Account := {| equity := 10000; cash := 2000 |}.
Definition acct_margin : Account := {| equity := 10000; cash := -5000 |}.

Definition rule_5pct : OrderAllocation.t := alloc_of "AAA" (5 # 100) 1.
Definition rule_tiny : OrderAllocation.t := alloc_of "BBB" (5 # 100000) 1.

Definition cfg_cap_200 : AccountConfig.t :=
  config_of "A" equity_basis (Some 200) [rule_5pct].
Definition cfg_cap_0 : AccountConfig.t :=
  config_of "A" equity_basis (Some 0) [rule_5pct].

(** three accounts; the service is unreachable for the second one *)
Definition cfg_A : AccountConfig.t :=
  config_of "A" equity_basis None [rule_5pct; rule_tiny].
Definition cfg_B : AccountConfig.t :=
  config_of "B" equity_basis None [rule_5pct].
Definition cfg_C : AccountConfig.t :=
  config_of "C" cash_basis None [rule_5pct].

Definition scripts_B_down (key_id : string) : Script :=
  if String.eqb key_id "B" then unreachable else healthy 10000 2000 200.

Definition scripts_all_up (key_id : string) : Script :=
  healthy 10000 2000 200.

Definition cfg_cap_half : AccountConfig.t :=
  config_of "A" equity_basis (Some (1 # 2)) [rule_5pct].

(** 1.5 percent of 10000 is 150, less than one share at 200 *)
Definition rule_150 : OrderAllocation.t := alloc_of "CCC" (15 # 1000) 1.
Definition cfg_150 : AccountConfig.t :=
  config_of "A" equity_basis None [rule_150].

(** the price lookup fails for the symbol "BAD" only *)
Definition rule_bad : OrderAllocation.t := alloc_of "BAD" (5 # 100) 1.
Definition cfg_bad_first : AccountConfig.t :=
  config_of "A" equity_basis None [rule_bad; rule_5pct].

Definition script_bad_symbol : Script :=
  {| sc_account := Returned acct_10k;
     sc_price := fun sym =>
       if String.eqb sym "BAD" then Raised (APIError "no trade found for BAD")
       else Returned 200;
     sc_submit := fun p => Returned ("order-" ++ p_symbol p) |}.

Definition start_state (w : Script) : RunState Script :=
  {| world := w; trace := [] |}.

(** the same account and prices, but every submission is rejected *)
Definition rejecting (eq_v cash_v price : Q) : Script :=
  {| sc_account := Returned {| equity := eq_v; cash := cash_v |};
     sc_price := fun _ => Returned price;
     sc_submit := fun _ => Raised (APIError "insufficient buying power") |}.

(** a margin account: negative cash; the rule's minimum is negative too *)
Definition rule_margin : OrderAllocation.t := alloc_of "DDD" (1 # 100) (-100).
Definition cfg_margin : AccountConfig.t :=
  config_of "M" cash_basis None [rule_margin].
Definition cfg_margin_default_min : AccountConfig.t :=
  config_of "M" cash_basis None [rule_5pct].

Definition scripts_margin (key_id : string) : Script :=
  healthy 10000 (-5000) 200.

(** rules whose resolved notional reaches their minimum *)
Definition passes_minimum (cfg : AccountConfig.t) (acct : Account)
  (alloc : OrderAllocation.t) : bool :=
  negb (Qltb (resolved_notional cfg acct alloc)
          (OrderAllocation.min_notional alloc)).

Definition cfg_cap_450 : AccountConfig.t :=
  config_of "A" equity_basis (Some 450) [rule_5pct].

(** ** Configuration loading *)

(** the values [yaml.safe_load] builds from a JSON-like document; a mapping
    keeps its keys in document order *)
Inductive PyKey : Type :=
| KStr (s : string)
| KInt (z : Z)
| KBool (b : bool)
| KNone.

#[local] Set Warnings "-register-all".

Inductive PyVal : Type :=
| PyNone
| PyBool (b : bool)
| PyInt (z : Z)
| PyFloat (q : Q)
| PyStr (s : string)
| PyList (l : list PyVal)
| PyDict (d : list (PyKey * PyVal)).

Inductive LoadError : Type :=
| KeyError (k : string)
| TypeError
| AttributeError
| ValueError (msg : string).

Inductive Result (A : Type) : Type :=
| Ok (a : A)
| Fail (e : LoadError).
Arguments Ok {A} a.
Arguments Fail {A} e.

Definition rbind {A B} (m : Result A) (k : A -> Result B) : Result B :=
  match m with
  | Ok a => k a
  | Fail e => Fail e
  end.

Notation "'let?' x ':=' m 'in' k" := (rbind m (fun x => k))
  (at level 10, x name, m at level 100, k at level 200).

(** the first failure stops the traversal *)
Fixpoint rmap {A B} (f : A -> Result B) (l : list A) : Result (list B) :=
  match l with
  | [] => Ok []
  | x :: tl =>
      let? y := f x in
      let? ys := rmap f tl in
      Ok (y :: ys)
  end.

Definition key_value (k : PyKey) : PyVal :=
  match k with
  | KStr s => PyStr s
  | KInt z => PyInt z
  | KBool b => PyBool b
  | KNone => PyNone
  end.

Fixpoint dict_lookup (d : list (PyKey * PyVal)) (k : string) : option PyVal :=
  match d with
  | [] => None
  | (KStr s, v) :: tl => if String.eqb s k then Some v else dict_lookup tl k
  | _ :: tl => dict_lookup tl k
  end.

(** [v.get(k, default)]: only a mapping has [get] *)
Definition py_get (v : PyVal) (k : string) (default : PyVal) : Result PyVal :=
  match v with
  | PyDict d =>
      Ok (match dict_lookup d k with Some x => x | None => default end)
  | _ => Fail AttributeError
  end.

(** [v[k]] for a string [k] *)
Definition py_getitem (v : PyVal) (k : string) : Result PyVal :=
  match v with
  | PyDict d =>
      match dict_lookup d k with
      | Some x => Ok x
      | None => Fail (KeyError k)
      end
  | _ => Fail TypeError
  end.

(** [for x in v]: a list gives its items, a mapping its keys, a string its
    characters *)
Definition py_iter (v : PyVal) : Result (list PyVal) :=
  match v with
  | PyList l => Ok l
  | PyDict d => Ok (map (fun kv => key_value (fst kv)) d)
  | PyStr s => Ok (map (fun c => PyStr (String c "")) (list_ascii_of_string s))
  | _ => Fail TypeError
  end.

(** the fields of the two dataclasses as [load_config] fills them: the
    numeric ones converted by [float], the others as found in the document *)
Record LoadedAllocation : Type := {
  la_symbol : PyVal;
  la_percentage : Q;
  la_side : PyVal;
  la_time_in_force : PyVal;
  la_allocation_basis : PyVal;
  la_min_notional : Q
}.

Record LoadedAccount : Type := {
  lc_name : PyVal;
  lc_key_id : PyVal;
  lc_secret_key : PyVal;
  lc_base_url : PyVal;
  lc_allocation_basis : PyVal;
  lc_max_notional_per_order : PyVal;
  lc_allocations : list LoadedAllocation
}.

Section Loader.
(** [float] of a string: [None] when the string is not a number *)
Variable parse_float : string -> option Q.

(** [float(v)] *)
Definition py_float (v : PyVal) : Result Q :=
  match v with
  | PyFloat q => Ok q
  | PyInt z => Ok (inject_Z z)
  | PyBool b => Ok (if b then 1 else 0)
  | PyStr s =>
      match parse_float s with
      | Some q => Ok q
      | None => Fail (ValueError "could not convert string to float")
      end
  | _ => Fail TypeError
  end.

(** lines 66-73: one [OrderAllocation(...)] of the comprehension *)
Definition load_allocation (item : PyVal) : Result LoadedAllocation :=
  let? symbol := py_getitem item "symbol" in
  let? pct := py_getitem item "percentage" in
  let? percentage := py_float pct in
  let? side := py_get item "side" (PyStr "buy") in
  let? time_in_force := py_get item "time_in_force" (PyStr "day") in
  let? allocation_basis := py_get item "allocation_basis" PyNone in
  let? mn := py_get item "min_notional" (PyFloat 1) in
  let? min_notional := py_float mn in
  Ok {| la_symbol := symbol;
        la_percentage := percentage;
        la_side := side;
        la_time_in_force := time_in_force;
        la_allocation_basis := allocation_basis;
        la_min_notional := min_notional |}.

(** lines 65-86: one iteration of the loop over the account entries *)
Definition load_account (entry : PyVal) : Result LoadedAccount :=
  let? items_v := py_get entry "allocations" (PyList []) in
  let? items := py_iter items_v in
  let? allocations := rmap load_allocation items in
  let? name := py_getitem entry "name" in
  let? key_id := py_getitem entry "key_id" in
  let? secret_key := py_getitem entry "secret_key" in
  let? base_url :=
    py_get entry "base_url" (PyStr "https://paper-api.alpaca.markets") in
  let? allocation_basis := py_get entry "allocation_basis" (PyStr "equity") in
  let? max_notional := py_get entry "max_notional_per_order" PyNone in
  Ok {| lc_name := name;
        lc_key_id := key_id;
        lc_secret_key := secret_key;
        lc_base_url := base_url;
        lc_allocation_basis := allocation_basis;
        lc_max_notional_per_order := max_notional;
        lc_allocations := allocations |}.

(** [load_config], from the document [yaml.safe_load] returned *)
Definition load_config (raw : PyVal) : Result (list LoadedAccount) :=
  let? accounts_v := py_get raw "accounts" (PyList []) in
  let? entries := py_iter accounts_v in
  let? accounts := rmap load_account entries in
  match accounts with
  | [] => Fail (ValueError "No accounts found in config. Check the YAML structure.")
  | _ => Ok accounts
  end.
End Loader.

(** ** The entry point, once the accounts are loaded *)

Inductive MainOutcome : Type :=
| SystemExit (code : Z)
| Completed (summary_lines : list (string * nat * nat)).

(** one "Account %s: %d submitted, %d skipped" record *)
Definition summary_line (summary : AccountSummary) : string * nat * nat :=
  (account summary, List.length (submitted summary),
   List.length (skipped summary)).

(** lines 221-238 of [main] *)
Definition main_after_load {W : Type} (rest : Client W)
  (float_str : Q -> string) (completion : list nat)
  (accounts : list AccountConfig.t) (dry_run disallow_fractional : bool)
  : MainOutcome :=
  match fan_out_orders rest float_str completion accounts dry_run
          (negb disallow_fractional) with
  | Raised _ => SystemExit 1
  | Returned summaries => Completed (map summary_line summaries)
  end.

(** ** Counting the records of a trace *)

Definition is_get_account (e : Event) : bool :=
  match e with EvGetAccount => true | _ => false end.

Definition is_lookup (e : Event) : bool :=
  match e with EvGetLatestTrade _ => true | _ => false end.

Definition is_log_info (e : Event) : bool :=
  match e with EvLogInfo _ _ _ _ _ _ _ => true | _ => false end.

Definition is_log_exception (e : Event) : bool :=
  match e with EvLogException _ _ _ => true | _ => false end.

Definition count (f : Event -> bool) (t : list Event) : nat :=
  List.length (filter f t).

(** the symbols looked up, in the order of the calls *)
Definition lookups (t : list Event) : list string :=
  flat_map (fun e => match e with EvGetLatestTrade sym => [sym] | _ => [] end) t.

(** the payloads handed to [submit_order], in the order of the calls *)
Definition sent (t : list Event) : list Payload :=
  flat_map (fun e => match e with EvSubmitOrder p => [p] | _ => [] end) t.

(** an order names a notional or a nonzero quantity, never both *)
Definition well_formed_payload (p : Payload) : Prop :=
  p_type p = "market" /\
  ((exists v, p_notional p = Some v /\ p_qty p = None) \/
   (exists q, p_qty p = Some q /\ q <> 0%Z /\ p_notional p = None)).

Definition is_dry_entry (e : SubmittedEntry) : bool :=
  match e with DryRunEntry _ => true | OrderEntry _ _ => false end.

(** [l1] is [l2] with some elements left out *)
Inductive subseq {A : Type} : list A -> list A -> Prop :=
| subseq_nil : subseq [] []
| subseq_skip x l1 l2 : subseq l1 l2 -> subseq l1 (x :: l2)
| subseq_take x l1 l2 : subseq l1 l2 -> subseq (x :: l1) (x :: l2).

(** ** What one allocation adds to the trace and to the summary *)

Definition log_record (cfg : AccountConfig.t) (dry_run : bool)
  (alloc : OrderAllocation.t) (payload : Payload) (notional : Q) : Event :=
  EvLogInfo (AccountConfig.name cfg) dry_run (OrderAllocation.side alloc)
    (p_qty payload) (OrderAllocation.symbol alloc)
    (OrderAllocation.normalized_basis alloc (AccountConfig.allocation_basis cfg))
    notional.

Definition api_skip (alloc : OrderAllocation.t) (msg : string) : SkippedEntry :=
  {| sk_symbol := OrderAllocation.symbol alloc; sk_reason := msg |}.

(** the four ways [dispatch] ends: its new trace records and its result *)
Inductive DispatchShape (cfg : AccountConfig.t) (dry_run : bool)
  (alloc : OrderAllocation.t) (notional : Q) (payload : Payload)
  (summary : AccountSummary) : list Event -> Outcome AccountSummary -> Prop :=
| ds_dry :
    dry_run = true ->
    DispatchShape cfg dry_run alloc notional payload summary
      [log_record cfg dry_run alloc payload notional]
      (Returned (add_submitted summary (DryRunEntry payload)))
| ds_accepted (id : string) :
    dry_run = false ->
    DispatchShape cfg dry_run alloc notional payload summary
      [log_record cfg dry_run alloc payload notional; EvSubmitOrder payload]
      (Returned (add_submitted summary
                   (OrderEntry (OrderAllocation.symbol alloc) id)))
| ds_api_error (msg : string) :
    dry_run = false ->
    DispatchShape cfg dry_run alloc notional payload summary
      [log_record cfg dry_run alloc payload notional; EvSubmitOrder payload;
       EvLogException (OrderAllocation.symbol alloc) (AccountConfig.name cfg) msg]
      (Returned (add_skipped summary (api_skip alloc msg)))
| ds_other_error (e : Exception) :
    dry_run = false ->
    (forall msg, e <> APIError msg) ->
    DispatchShape cfg dry_run alloc notional payload summary
      [log_record cfg dry_run alloc payload notional; EvSubmitOrder payload]
      (Raised e).

(** the ways one iteration of the loop ends *)
Inductive StepShape (float_str : Q -> string) (cfg : AccountConfig.t)
  (dry_run allow_fractional : bool) (acct : Account)
  (alloc : OrderAllocation.t) (summary : AccountSummary)
  : list Event -> Outcome AccountSummary -> Prop :=
| ss_below_min :
    passes_minimum cfg acct alloc = false ->
    StepShape float_str cfg dry_run allow_fractional acct alloc summary
      [] (Returned (add_skipped summary (below_min_entry float_str cfg acct alloc)))
| ss_fractional evs res :
    passes_minimum cfg acct alloc = true ->
    allow_fractional = true ->
    DispatchShape cfg dry_run alloc (resolved_notional cfg acct alloc)
      (set_notional (base_payload alloc)
         (py_round2 (resolved_notional cfg acct alloc))) summary evs res ->
    StepShape float_str cfg dry_run allow_fractional acct alloc summary evs res
| ss_lookup_raised e :
    passes_minimum cfg acct alloc = true ->
    allow_fractional = false ->
    StepShape float_str cfg dry_run allow_fractional acct alloc summary
      [EvGetLatestTrade (OrderAllocation.symbol alloc)] (Raised e)
| ss_zero_price price :
    passes_minimum cfg acct alloc = true ->
    allow_fractional = false ->
    price == 0 ->
    StepShape float_str cfg dry_run allow_fractional acct alloc summary
      [EvGetLatestTrade (OrderAllocation.symbol alloc)]
      (Raised ZeroDivisionError)
| ss_zero_qty price :
    passes_minimum cfg acct alloc = true ->
    allow_fractional = false ->
    ~ price == 0 ->
    Qfloor (resolved_notional cfg acct alloc / price) = 0%Z ->
    StepShape float_str cfg dry_run allow_fractional acct alloc summary
      [EvGetLatestTrade (OrderAllocation.symbol alloc)]
      (Returned (add_skipped summary (zero_qty_entry float_str alloc price)))
| ss_whole_share price evs res :
    passes_minimum cfg acct alloc = true ->
    allow_fractional = false ->
    ~ price == 0 ->
    Qfloor (resolved_notional cfg acct alloc / price) <> 0%Z ->
    DispatchShape cfg dry_run alloc (resolved_notional cfg acct alloc)
      (set_qty (base_payload alloc)
         (Qfloor (resolved_notional cfg acct alloc / price))) summary evs res ->
    StepShape float_str cfg dry_run allow_fractional acct alloc summary
      (EvGetLatestTrade (OrderAllocation.symbol alloc) :: evs) res.

(** the loop: the iterations in order, up to the first one that raises *)
Inductive LoopShape (float_str : Q -> string) (cfg : AccountConfig.t)
  (dry_run allow_fractional : bool) (acct : Account)
  : list OrderAllocation.t -> AccountSummary ->
    list Event -> Outcome AccountSummary -> Prop :=
| ls_done summary :
    LoopShape float_str cfg dry_run allow_fractional acct [] summary
      [] (Returned summary)
| ls_raised alloc allocs summary evs e :
    StepShape float_str cfg dry_run allow_fractional acct alloc summary
      evs (Raised e) ->
    LoopShape float_str cfg dry_run allow_fractional acct (alloc :: allocs)
      summary evs (Raised e)
| ls_next alloc allocs summary evs summary' evs' res :
    StepShape float_str cfg dry_run allow_fractional acct alloc summary
      evs (Returned summary') ->
    LoopShape float_str cfg dry_run allow_fractional acct allocs summary'
      evs' res ->
    LoopShape float_str cfg dry_run allow_fractional acct (alloc :: allocs)
      summary (evs ++ evs')%list res.

(** [s] with a new client state and further trace records *)
Definition extended {W : Type} (s : RunState W) (w' : W) (evs : list Event)
  : RunState W :=
  {| world := w'; trace := trace s ++ evs |}.

(** sample documents; their numbers are YAML numbers, so no string has to
    be converted *)
Definition no_numeric_strings (s : string) : option Q := None.

Definition item_AAA : PyVal :=
  PyDict [(KStr "symbol", PyStr "AAA"); (KStr "percentage", PyFloat (5 # 100))].

Definition item_null_min : PyVal :=
  PyDict [(KStr "symbol", PyStr "AAA"); (KStr "percentage", PyFloat (5 # 100));
          (KStr "min_notional", PyNone)].

Definition entry_A : PyVal :=
  PyDict [(KStr "name", PyStr "A"); (KStr "key_id", PyStr "key-A");
          (KStr "secret_key", PyStr "secret-A");
          (KStr "allocations", PyList [item_AAA])].

Definition doc_one_account : PyVal :=
  PyDict [(KStr "accounts", PyList [entry_A])].

(** the second entry lacks its name *)
Definition doc_nameless_entry : PyVal :=
  PyDict [(KStr "accounts",
           PyList [entry_A; PyDict [(KStr "key_id", PyStr "key-B")]; entry_A])].

(** the rules of an account split, in order, into submitted and skipped
    entries: every rule has exactly one entry, which bears its symbol; a rule
    is submitted only if its resolved notional reaches its minimum, and a
    rule below its minimum has the below-minimum entry *)
Inductive Partitioned (float_str : Q -> string) (cfg : AccountConfig.t)
  (acct : Account)
  : list OrderAllocation.t -> list SubmittedEntry -> list SkippedEntry -> Prop :=
| part_done : Partitioned float_str cfg acct [] [] []
| part_submitted alloc allocs e sub sk :
    entry_symbol e = OrderAllocation.symbol alloc ->
    passes_minimum cfg acct alloc = true ->
    Partitioned float_str cfg acct allocs sub sk ->
    Partitioned float_str cfg acct (alloc :: allocs) (e :: sub) sk
| part_skipped alloc allocs k sub sk :
    sk_symbol k = OrderAllocation.symbol alloc ->
    (passes_minimum cfg acct alloc = false ->
     k = below_min_entry float_str cfg acct alloc) ->
    Partitioned float_str cfg acct allocs sub sk ->
    Partitioned float_str cfg acct (alloc :: allocs) sub (k :: sk).

(** * Properties *)

(** ** Numeric facts *)

Lemma Qltb_lt (x y : Q) : Qltb x y = true <-> x < y.
Proof.
  unfold Qltb. rewrite negb_true_iff.
  split; intro H.
  - apply Qnot_le_lt. intro Hle. apply Qle_bool_iff in Hle. congruence.
  - destruct (Qle_bool y x) eqn:E; [|reflexivity].
    apply Qle_bool_iff in E. exfalso. apply (Qlt_not_le _ _ H E).
Qed.

Lemma Qltb_ge (x y : Q) : Qltb x y = false <-> y <= x.
Proof.
  unfold Qltb. rewrite negb_false_iff. apply Qle_bool_iff.
Qed.

Lemma truthy_nonzero (x : Q) : truthy x = true <-> ~ x == 0.
Proof.
  unfold truthy. rewrite negb_true_iff. split; intro H.
  - apply Qeq_bool_neq. exact H.
  - destruct (Qeq_bool x 0) eqn:E; [|reflexivity].
    apply Qeq_bool_iff in E. contradiction.
Qed.

Lemma py_min_Qmin (a b : Q) : py_min a b == Qmin a b.
Proof.
  unfold py_min. destruct (Qltb b a) eqn:E.
  - apply Qltb_lt in E. symmetry. apply Q.min_r. apply Qlt_le_weak. exact E.
  - apply Qltb_ge in E. symmetry. apply Q.min_l. exact E.
Qed.

Lemma py_int_inject_Z (z : Z) : py_int (inject_Z z) = z.
Proof. unfold py_int. simpl. apply Z.quot_1_r. Qed.

Lemma py_floordiv_returns (a b : Q) :
  ~ b == 0 -> py_floordiv a b = Returned (inject_Z (Qfloor (a / b))).
Proof.
  intro Hb. unfold py_floordiv.
  destruct (Qeq_bool b 0) eqn:E; [|reflexivity].
  apply Qeq_bool_iff in E. contradiction.
Qed.

Lemma floor_quotient_bounds (n p : Q) :
  0 < p ->
  inject_Z (Qfloor (n / p)) * p <= n /\
  n < (inject_Z (Qfloor (n / p)) + 1) * p.
Proof.
  intro Hp.
  assert (Hne : ~ p == 0) by (intro E; rewrite E in Hp; discriminate).
  assert (Hn : n == (n / p) * p) by (field; exact Hne).
  pose proof (Qfloor_le (n / p)) as Hlo.
  pose proof (Qlt_floor (n / p)) as Hhi.
  rewrite inject_Z_plus in Hhi. change (inject_Z 1) with 1 in Hhi.
  split.
  - rewrite Hn at 2. apply Qmult_le_r; assumption.
  - rewrite Hn at 1. apply Qmult_lt_r; assumption.
Qed.

(** ** Substrings *)

Lemma append_assoc (a b c : string) : (a ++ b) ++ c = a ++ (b ++ c).
Proof. induction a as [|ch a IH]; simpl; [reflexivity | now rewrite IH]. Qed.

Lemma append_nil_r (a : string) : a ++ "" = a.
Proof. induction a as [|ch a IH]; simpl; [reflexivity | now rewrite IH]. Qed.

Lemma below_min_reason_mentions (float_str : Q -> string) (v m : Q) :
  contains (below_min_reason float_str v m) (format_2f v) /\
  contains (below_min_reason float_str v m) (float_str m).
Proof.
  unfold below_min_reason, contains. split.
  - exists "notional ", (" below min " ++ float_str m). reflexivity.
  - exists ("notional " ++ format_2f v ++ " below min "), "".
    rewrite append_nil_r, !append_assoc. reflexivity.
Qed.

Lemma zero_qty_reason_mentions (float_str : Q -> string) (p : Q) :
  contains (zero_qty_reason float_str p) (float_str p).
Proof.
  exists "qty would be 0 with latest price ", "".
  rewrite append_nil_r. reflexivity.
Qed.

(** ** Capping *)

(** C4, as amended: when [max_notional_per_order] is set to a nonzero value,
    the resolved notional is [min(reference_value * percentage, max)], and it
    is exactly [max] when the raw notional exceeds it. *)
Theorem cap_applies_when_nonzero
  (cfg : AccountConfig.t) (acct : Account) (alloc : OrderAllocation.t) (m : Q) :
  AccountConfig.max_notional_per_order cfg = Some m ->
  ~ m == 0 ->
  resolved_notional cfg acct alloc = py_min (raw_notional cfg acct alloc) m /\
  resolved_notional cfg acct alloc == Qmin (raw_notional cfg acct alloc) m /\
  (m < raw_notional cfg acct alloc -> resolved_notional cfg acct alloc = m).
Proof.
  intros Hcap Hm.
  assert (E : resolved_notional cfg acct alloc = py_min (raw_notional cfg acct alloc) m).
  { unfold resolved_notional. rewrite Hcap.
    apply truthy_nonzero in Hm. now rewrite Hm. }
  split; [exact E|]. split.
  - rewrite E. apply py_min_Qmin.
  - intro Hlt. rewrite E. unfold py_min.
    apply Qltb_lt in Hlt. now rewrite Hlt.
Qed.

Lemma cap_applies_when_nonzero_witness :
  resolved_notional cfg_cap_200 acct_10k rule_5pct = 200.
Proof.
  apply (cap_applies_when_nonzero cfg_cap_200 acct_10k rule_5pct 200).
  - reflexivity.
  - discriminate.
  - reflexivity.
Defined.

(** C4 as stated fails: a cap that is set to zero is not applied. *)
Lemma zero_cap_is_ignored :
  AccountConfig.max_notional_per_order cfg_cap_0 = Some 0 /\
  ~ resolved_notional cfg_cap_0 acct_10k rule_5pct
    == Qmin (raw_notional cfg_cap_0 acct_10k rule_5pct) 0.
Proof.
  split; [reflexivity|].
  intro H. vm_compute in H. discriminate.
Qed.

(** an unset cap leaves the raw notional unchanged *)
Lemma no_cap_keeps_raw (cfg : AccountConfig.t) (acct : Account)
  (alloc : OrderAllocation.t) :
  AccountConfig.max_notional_per_order cfg = None ->
  resolved_notional cfg acct alloc = raw_notional cfg acct alloc.
Proof. intro H. unfold resolved_notional. now rewrite H. Qed.

(** ** One allocation at a time *)

Section StepFacts.
Context {W : Type}.
Variable rest : Client W.
Variable float_str : Q -> string.

Lemma dispatch_dry_run cfg alloc notional payload summary (s : RunState W) :
  dispatch rest cfg true alloc notional payload summary s =
  (Returned (add_submitted summary (DryRunEntry payload)),
   {| world := world s;
      trace := trace s ++
        [EvLogInfo (AccountConfig.name cfg) true (OrderAllocation.side alloc)
           (p_qty payload) (OrderAllocation.symbol alloc)
           (OrderAllocation.normalized_basis alloc
              (AccountConfig.allocation_basis cfg)) notional] |}).
Proof. reflexivity. Qed.

(** what a returning [dispatch] can have done *)
Lemma dispatch_cases cfg dry_run alloc notional payload summary
  (s s' : RunState W) summary' :
  p_symbol payload = OrderAllocation.symbol alloc ->
  dispatch rest cfg dry_run alloc notional payload summary s
    = (Returned summary', s') ->
  (exists e, summary' = add_submitted summary e /\
             entry_symbol e = OrderAllocation.symbol alloc) \/
  (exists msg, summary' = add_skipped summary
                 {| sk_symbol := OrderAllocation.symbol alloc;
                    sk_reason := msg |}).
Proof.
  intro Hsym.
  unfold dispatch, bind, emit, try_except_APIError, remote, ret.
  destruct dry_run.
  - intro H. inversion H; subst. left. eexists. split; [reflexivity|exact Hsym].
  - cbn [world trace].
    destruct (submit_order rest payload (world s)) as [[id|e] w'] eqn:E.
    + intro H. inversion H; subst. left. eexists. split; reflexivity.
    + destruct e; intro H; try discriminate.
      inversion H; subst. right. eexists. reflexivity.
Qed.
End StepFacts.

Section AllocationFacts.
Context {W : Type}.
Variable rest : Client W.
Variable float_str : Q -> string.

Lemma step_below_min cfg dry_run allow_fractional acct alloc summary
  (s : RunState W) :
  resolved_notional cfg acct alloc < OrderAllocation.min_notional alloc ->
  process_allocation rest float_str cfg dry_run allow_fractional acct alloc
    summary s
  = (Returned (add_skipped summary (below_min_entry float_str cfg acct alloc)), s).
Proof.
  intro H. apply Qltb_lt in H.
  unfold process_allocation. rewrite H. reflexivity.
Qed.

Lemma step_fractional cfg dry_run acct alloc summary (s : RunState W) :
  OrderAllocation.min_notional alloc <= resolved_notional cfg acct alloc ->
  process_allocation rest float_str cfg dry_run true acct alloc summary s
  = dispatch rest cfg dry_run alloc (resolved_notional cfg acct alloc)
      (set_notional (base_payload alloc)
         (py_round2 (resolved_notional cfg acct alloc)))
      summary s.
Proof.
  intro H. apply Qltb_ge in H.
  unfold process_allocation. rewrite H. reflexivity.
Qed.

Lemma step_whole_share cfg dry_run acct alloc summary (s : RunState W)
  price w' :
  OrderAllocation.min_notional alloc <= resolved_notional cfg acct alloc ->
  get_latest_trade rest (OrderAllocation.symbol alloc) (world s)
    = (Returned price, w') ->
  ~ price == 0 ->
  process_allocation rest float_str cfg dry_run false acct alloc summary s
  = if (Qfloor (resolved_notional cfg acct alloc / price) =? 0)%Z
    then (Returned (add_skipped summary (zero_qty_entry float_str alloc price)),
          after_lookup alloc s w')
    else dispatch rest cfg dry_run alloc (resolved_notional cfg acct alloc)
           (set_qty (base_payload alloc)
              (Qfloor (resolved_notional cfg acct alloc / price)))
           summary (after_lookup alloc s w').
Proof.
  intros Hmin Hlook Hp. apply Qltb_ge in Hmin.
  unfold process_allocation. rewrite Hmin.
  unfold bind at 1. unfold remote at 1. rewrite Hlook.
  unfold bind at 1. unfold raise_outcome.
  rewrite (py_floordiv_returns _ _ Hp), py_int_inject_Z.
  fold (after_lookup alloc s w').
  destruct (Qfloor (resolved_notional cfg acct alloc / price) =? 0)%Z;
    reflexivity.
Qed.

Lemma step_lookup_raises cfg dry_run acct alloc summary (s : RunState W)
  e w' :
  OrderAllocation.min_notional alloc <= resolved_notional cfg acct alloc ->
  get_latest_trade rest (OrderAllocation.symbol alloc) (world s)
    = (Raised e, w') ->
  process_allocation rest float_str cfg dry_run false acct alloc summary s
  = (Raised e, after_lookup alloc s w').
Proof.
  intros Hmin Hlook. apply Qltb_ge in Hmin.
  unfold process_allocation. rewrite Hmin.
  unfold bind at 1. unfold remote at 1. rewrite Hlook. reflexivity.
Qed.

(** the whole-share branch, once the minimum check has passed *)
Lemma step_whole_share_unfold cfg dry_run acct alloc summary (s : RunState W) :
  Qltb (resolved_notional cfg acct alloc) (OrderAllocation.min_notional alloc)
    = false ->
  process_allocation rest float_str cfg dry_run false acct alloc summary s
  = match get_latest_trade rest (OrderAllocation.symbol alloc) (world s) with
    | (Returned price, w') =>
        match py_floordiv (resolved_notional cfg acct alloc) price with
        | Returned fl =>
            if (py_int fl =? 0)%Z
            then (Returned (add_skipped summary (zero_qty_entry float_str alloc price)),
                  after_lookup alloc s w')
            else dispatch rest cfg dry_run alloc
                   (resolved_notional cfg acct alloc)
                   (set_qty (base_payload alloc) (py_int fl))
                   summary (after_lookup alloc s w')
        | Raised e => (Raised e, after_lookup alloc s w')
        end
    | (Raised e, w') => (Raised e, after_lookup alloc s w')
    end.
Proof.
  intro Hmin. unfold process_allocation. rewrite Hmin.
  unfold bind at 1. unfold remote at 1.
  destruct (get_latest_trade rest (OrderAllocation.symbol alloc) (world s))
    as [[price|e] w']; [|reflexivity].
  unfold bind at 1. unfold raise_outcome.
  fold (after_lookup alloc s w').
  destruct (py_floordiv (resolved_notional cfg acct alloc) price) as [fl|e];
    [|reflexivity].
  destruct (py_int fl =? 0)%Z; reflexivity.
Qed.

(** a returning step adds exactly one entry, for the rule's symbol, and a
    submitted one only when the notional reaches the minimum *)
Lemma step_cases cfg dry_run allow_fractional acct alloc summary
  (s s' : RunState W) summary' :
  process_allocation rest float_str cfg dry_run allow_fractional acct alloc
    summary s = (Returned summary', s') ->
  (exists e, summary' = add_submitted summary e /\
             entry_symbol e = OrderAllocation.symbol alloc /\
             OrderAllocation.min_notional alloc
               <= resolved_notional cfg acct alloc) \/
  (exists k, summary' = add_skipped summary k /\
             sk_symbol k = OrderAllocation.symbol alloc).
Proof.
  destruct (Qltb (resolved_notional cfg acct alloc)
              (OrderAllocation.min_notional alloc)) eqn:Hlt.
  - apply Qltb_lt in Hlt. rewrite (step_below_min _ _ _ _ _ _ _ Hlt).
    intro H. inversion H; subst. right. eexists. split; reflexivity.
  - apply Qltb_ge in Hlt.
    assert (Hdisp : forall payload s0,
      p_symbol payload = OrderAllocation.symbol alloc ->
      dispatch rest cfg dry_run alloc (resolved_notional cfg acct alloc)
        payload summary s0 = (Returned summary', s') ->
      (exists e, summary' = add_submitted summary e /\
             entry_symbol e = OrderAllocation.symbol alloc /\
             OrderAllocation.min_notional alloc
               <= resolved_notional cfg acct alloc) \/
      (exists k, summary' = add_skipped summary k /\
             sk_symbol k = OrderAllocation.symbol alloc)).
    { intros payload s0 Hsym Hd.
      destruct (dispatch_cases rest _ _ _ _ _ _ _ _ _ Hsym Hd)
        as [[e [E1 E2]]|[msg E]].
      - left. exists e. auto.
      - right. eexists. split; [exact E|reflexivity]. }
    destruct allow_fractional.
    + rewrite (step_fractional _ _ _ _ _ _ Hlt). apply Hdisp. reflexivity.
    + destruct (get_latest_trade rest (OrderAllocation.symbol alloc) (world s))
        as [[price|e] w'] eqn:Hlook.
      * destruct (Qeq_bool price 0) eqn:Hz.
        -- unfold process_allocation.
           apply Qltb_ge in Hlt. rewrite Hlt.
           unfold bind at 1. unfold remote at 1. rewrite Hlook.
           unfold bind at 1. unfold raise_outcome, py_floordiv. rewrite Hz.
           discriminate.
        -- apply Qeq_bool_neq in Hz.
           rewrite (step_whole_share _ _ _ _ _ _ _ _ Hlt Hlook Hz).
           destruct (Qfloor (resolved_notional cfg acct alloc / price) =? 0)%Z.
           ++ intro H. inversion H; subst. right. eexists.
              split; reflexivity.
           ++ apply Hdisp. reflexivity.
      * rewrite (step_lookup_raises _ _ _ _ _ _ _ _ Hlt Hlook). discriminate.
Qed.
End AllocationFacts.

(** ** The loop over the allocations *)

Section LoopFacts.
Context {W : Type}.
Variable rest : Client W.
Variable float_str : Q -> string.

Lemma loop_cons cfg dry_run allow_fractional acct alloc allocs summary
  (s : RunState W) :
  process_allocations rest float_str cfg dry_run allow_fractional acct
    (alloc :: allocs) summary s
  = match process_allocation rest float_str cfg dry_run allow_fractional
            acct alloc summary s with
    | (Returned summary', s') =>
        process_allocations rest float_str cfg dry_run allow_fractional acct
          allocs summary' s'
    | (Raised e, s') => (Raised e, s')
    end.
Proof. reflexivity. Qed.

(** nothing lost, nothing duplicated *)
Lemma loop_counts cfg dry_run allow_fractional acct allocs :
  forall summary (s s' : RunState W) r,
  process_allocations rest float_str cfg dry_run allow_fractional acct
    allocs summary s = (Returned r, s') ->
  account r = account summary /\
  (List.length (submitted r) + List.length (skipped r)
   = List.length (submitted summary) + List.length (skipped summary) + List.length allocs)%nat.
Proof.
  induction allocs as [|alloc allocs IH]; intros summary s s' r Hrun.
  - inversion Hrun; subst. split; [reflexivity | simpl; lia].
  - rewrite loop_cons in Hrun.
    destruct (process_allocation rest float_str cfg dry_run allow_fractional
                acct alloc summary s) as [[summary1|e] s1] eqn:Hstep;
      [|discriminate].
    destruct (IH _ _ _ _ Hrun) as [Hacc Hlen].
    destruct (step_cases _ _ _ _ _ _ _ _ _ _ _ Hstep)
      as [[e [-> _]]|[k [-> _]]];
      simpl in *; rewrite ?List.length_app in Hlen; simpl in Hlen;
      (split; [exact Hacc | lia]).
Qed.

(** every submitted entry stems from a rule whose notional reaches its
    minimum *)
Lemma loop_submitted_origin cfg dry_run allow_fractional acct allocs :
  forall summary (s s' : RunState W) r,
  process_allocations rest float_str cfg dry_run allow_fractional acct
    allocs summary s = (Returned r, s') ->
  forall e, In e (submitted r) ->
  In e (submitted summary) \/
  exists alloc, In alloc allocs /\
    entry_symbol e = OrderAllocation.symbol alloc /\
    OrderAllocation.min_notional alloc <= resolved_notional cfg acct alloc.
Proof.
  induction allocs as [|alloc allocs IH]; intros summary s s' r Hrun e He.
  - inversion Hrun; subst. left. exact He.
  - rewrite loop_cons in Hrun.
    destruct (process_allocation rest float_str cfg dry_run allow_fractional
                acct alloc summary s) as [[summary1|x] s1] eqn:Hstep;
      [|discriminate].
    destruct (IH _ _ _ _ Hrun e He) as [Hin|[a [Ha Hrest]]].
    + destruct (step_cases _ _ _ _ _ _ _ _ _ _ _ Hstep)
        as [[e1 [-> [Hs Hm]]]|[k [-> _]]]; simpl in Hin.
      * apply in_app_or in Hin. destruct Hin as [Hin|[<-|[]]].
        -- left. exact Hin.
        -- right. exists alloc. split; [left; reflexivity|]. split; assumption.
      * left. exact Hin.
    + right. exists a. split; [right; exact Ha | exact Hrest].
Qed.

(** entries already recorded stay in the report *)
Lemma loop_keeps_skipped cfg dry_run allow_fractional acct allocs :
  forall summary (s s' : RunState W) r,
  process_allocations rest float_str cfg dry_run allow_fractional acct
    allocs summary s = (Returned r, s') ->
  forall k, In k (skipped summary) -> In k (skipped r).
Proof.
  induction allocs as [|alloc allocs IH]; intros summary s s' r Hrun k Hk.
  - inversion Hrun; subst. exact Hk.
  - rewrite loop_cons in Hrun.
    destruct (process_allocation rest float_str cfg dry_run allow_fractional
                acct alloc summary s) as [[summary1|x] s1] eqn:Hstep;
      [|discriminate].
    apply (IH _ _ _ _ Hrun).
    destruct (step_cases _ _ _ _ _ _ _ _ _ _ _ Hstep)
      as [[e1 [-> _]]|[k1 [-> _]]]; simpl.
    + exact Hk.
    + apply in_or_app. left. exact Hk.
Qed.

(** a rule below its minimum ends up among the skipped entries *)
Lemma loop_below_min_skipped cfg dry_run allow_fractional acct allocs :
  forall summary (s s' : RunState W) r,
  process_allocations rest float_str cfg dry_run allow_fractional acct
    allocs summary s = (Returned r, s') ->
  forall alloc, In alloc allocs ->
  resolved_notional cfg acct alloc < OrderAllocation.min_notional alloc ->
  In (below_min_entry float_str cfg acct alloc) (skipped r).
Proof.
  induction allocs as [|a allocs IH]; intros summary s s' r Hrun alloc Hin Hlt.
  - destruct Hin.
  - rewrite loop_cons in Hrun.
    destruct (process_allocation rest float_str cfg dry_run allow_fractional
                acct a summary s) as [[summary1|x] s1] eqn:Hstep;
      [|discriminate].
    destruct Hin as [->|Hin].
    + rewrite (step_below_min _ _ _ _ _ _ _ _ _ Hlt) in Hstep.
      inversion Hstep; subst.
      apply (loop_keeps_skipped _ _ _ _ _ _ _ _ _ Hrun).
      simpl. apply in_or_app. right. left. reflexivity.
    + apply (IH _ _ _ _ Hrun _ Hin Hlt).
Qed.
End LoopFacts.

(** ** Gathering the tasks *)

Section GatherFacts.
Context {A : Type}.

Lemma collect_returned (outs : list (Outcome A)) (l : list A) :
  collect outs = Returned l <-> outs = map Returned l.
Proof.
  revert l. induction outs as [|o outs IH]; intro l; simpl.
  - split; intro H.
    + inversion H. reflexivity.
    + destruct l; [reflexivity | discriminate].
  - destruct o as [a|e].
    + destruct (collect outs) as [l0|e0].
      * split; intro H.
        -- inversion H; subst. simpl. f_equal. apply IH. reflexivity.
        -- destruct l as [|a1 l1]; [discriminate|]. simpl in H.
           inversion H; subst. f_equal. f_equal.
           assert (E : Returned l0 = Returned l1) by (apply IH; reflexivity).
           inversion E. reflexivity.
      * split; intro H; [discriminate|].
        destruct l as [|a1 l1]; [discriminate|]. simpl in H.
        inversion H; subst.
        assert (E : @Raised (list A) e0 = Returned l1) by (apply IH; reflexivity).
        discriminate.
    + split; intro H; [discriminate|].
      destruct l; discriminate.
Qed.

Lemma collect_raised (outs : list (Outcome A)) (e : Exception) :
  collect outs = Raised e -> In (Raised e) outs.
Proof.
  induction outs as [|o outs IH]; simpl; [discriminate|].
  destruct o as [a|e0].
  - destruct (collect outs) as [l0|e1]; [discriminate|].
    intro H. inversion H; subst. right. apply IH. reflexivity.
  - intro H. inversion H; subst. left. reflexivity.
Qed.

Lemma first_raised_in (completion : list nat) (outs : list (Outcome A)) e :
  first_raised completion outs = Some e -> In (Raised e) outs.
Proof.
  induction completion as [|i tl IH]; simpl; [discriminate|].
  destruct (nth_error outs i) as [[a|e0]|] eqn:E; try exact IH.
  intro H. inversion H; subst. apply (nth_error_In _ _ E).
Qed.

Lemma first_raised_all_returned (completion : list nat) (l : list A) :
  first_raised completion (map Returned l) = None.
Proof.
  induction completion as [|i tl IH]; simpl; [reflexivity|].
  rewrite nth_error_map. destruct (nth_error l i); exact IH.
Qed.

(** [gather] returns exactly when every task returned, and then the
    results are those of the tasks, in the order of the tasks *)
Lemma gather_returned (completion : list nat) (outs : list (Outcome A))
  (l : list A) :
  gather completion outs = Returned l <-> outs = map Returned l.
Proof.
  unfold gather. split.
  - destruct (first_raised completion outs); [discriminate|].
    apply collect_returned.
  - intros ->. rewrite first_raised_all_returned. apply collect_returned.
    reflexivity.
Qed.

(** one raising task makes [gather] raise, with the exception of some
    task that raised *)
Lemma gather_raises (completion : list nat) (outs : list (Outcome A)) e :
  In (Raised e) outs ->
  exists e', gather completion outs = Raised e' /\ In (Raised e') outs.
Proof.
  intro Hin. unfold gather.
  destruct (first_raised completion outs) as [e1|] eqn:F.
  - exists e1. split; [reflexivity|]. apply (first_raised_in _ _ _ F).
  - destruct (collect outs) as [l|e1] eqn:C.
    + apply collect_returned in C. subst.
      apply in_map_iff in Hin. destruct Hin as [x [Hx _]]. discriminate.
    + exists e1. split; [reflexivity|]. apply collect_raised. exact C.
Qed.
End GatherFacts.

(** ** The account task as a whole *)

Section TaskFacts.
Context {W : Type}.
Variable rest : Client W.
Variable float_str : Q -> string.

Lemma task_unfold cfg dry_run allow_fractional :
  _submit_orders_for_account rest float_str cfg dry_run allow_fractional
  = match get_account rest (client_state rest cfg) with
    | (Returned acct, w1) =>
        process_allocations rest float_str cfg dry_run allow_fractional acct
          (AccountConfig.allocations cfg) (empty_summary cfg)
          (after_snapshot w1)
    | (Raised e, w1) => (Raised e, after_snapshot w1)
    end.
Proof.
  unfold _submit_orders_for_account, account_task, bind, remote.
  cbn [world trace]. fold (client_state rest cfg).
  destruct (get_account rest (client_state rest cfg)) as [[acct|e] w1];
    reflexivity.
Qed.

Lemma task_snapshot_raises cfg dry_run allow_fractional e w1 :
  get_account rest (client_state rest cfg) = (Raised e, w1) ->
  _submit_orders_for_account rest float_str cfg dry_run allow_fractional
  = (Raised e, after_snapshot w1).
Proof. intro H. rewrite task_unfold, H. reflexivity. Qed.

Lemma task_returned cfg dry_run allow_fractional r :
  fst (_submit_orders_for_account rest float_str cfg dry_run allow_fractional)
    = Returned r ->
  exists acct w1 s',
    get_account rest (client_state rest cfg) = (Returned acct, w1) /\
    process_allocations rest float_str cfg dry_run allow_fractional acct
      (AccountConfig.allocations cfg) (empty_summary cfg) (after_snapshot w1)
    = (Returned r, s').
Proof.
  rewrite task_unfold.
  destruct (get_account rest (client_state rest cfg)) as [[acct|e] w1];
    [|discriminate].
  destruct (process_allocations _ _ _ _ _ _ _ _ _) as [o s'] eqn:E.
  simpl. intros ->. exists acct, w1, s'. split; [reflexivity | exact E].
Qed.

Lemma task_counts cfg dry_run allow_fractional r :
  fst (_submit_orders_for_account rest float_str cfg dry_run allow_fractional)
    = Returned r ->
  account r = AccountConfig.name cfg /\
  (List.length (submitted r) + List.length (skipped r)
   = List.length (AccountConfig.allocations cfg))%nat.
Proof.
  intro H. destruct (task_returned _ _ _ _ H) as (acct & w1 & s' & _ & Hloop).
  destruct (loop_counts _ _ _ _ _ _ _ _ _ _ _ Hloop) as [Ha Hl].
  split; [exact Ha | exact Hl].
Qed.
End TaskFacts.

(** ** Runs without an uncaught exception *)

Section Totality.
Context {W : Type}.
Variable rest : Client W.
Variable float_str : Q -> string.
Variable ok : W -> Prop.
Hypothesis Hrel : reliable rest ok.

Lemma dispatch_returns cfg dry_run alloc notional payload summary
  (s : RunState W) :
  ok (world s) ->
  exists summary' s',
    dispatch rest cfg dry_run alloc notional payload summary s
    = (Returned summary', s') /\ ok (world s').
Proof.
  intro Hok. destruct dry_run.
  - rewrite dispatch_dry_run. eauto.
  - unfold dispatch, bind, emit, try_except_APIError, remote, ret.
    cbn [world trace].
    destruct Hrel as (_ & _ & Hsub).
    destruct (Hsub payload (world s) Hok) as [w' [Hok' [[id E]|[msg E]]]];
      rewrite E; eauto.
Qed.

Lemma step_returns cfg dry_run allow_fractional acct alloc summary
  (s : RunState W) :
  ok (world s) ->
  exists summary' s',
    process_allocation rest float_str cfg dry_run allow_fractional acct alloc
      summary s = (Returned summary', s') /\ ok (world s').
Proof.
  intro Hok.
  destruct (Qltb (resolved_notional cfg acct alloc)
              (OrderAllocation.min_notional alloc)) eqn:Hlt.
  - apply Qltb_lt in Hlt. rewrite (step_below_min _ _ _ _ _ _ _ _ _ Hlt). eauto.
  - apply Qltb_ge in Hlt. destruct allow_fractional.
    + rewrite (step_fractional _ _ _ _ _ _ _ _ Hlt).
      apply dispatch_returns. exact Hok.
    + destruct Hrel as (_ & Hprice & _).
      destruct (Hprice (OrderAllocation.symbol alloc) (world s) Hok)
        as (price & w' & Hlook & Hnz & Hok').
      rewrite (step_whole_share _ _ _ _ _ _ _ _ _ _ Hlt Hlook Hnz).
      destruct (Qfloor (resolved_notional cfg acct alloc / price) =? 0)%Z.
      * eauto.
      * apply dispatch_returns. exact Hok'.
Qed.

Lemma loop_returns cfg dry_run allow_fractional acct allocs :
  forall summary (s : RunState W),
  ok (world s) ->
  exists r s',
    process_allocations rest float_str cfg dry_run allow_fractional acct
      allocs summary s = (Returned r, s').
Proof.
  induction allocs as [|alloc allocs IH]; intros summary s Hok.
  - simpl. unfold ret. eauto.
  - rewrite loop_cons.
    destruct (step_returns cfg dry_run allow_fractional acct alloc summary s Hok)
      as (summary1 & s1 & E & Hok1).
    rewrite E. apply IH. exact Hok1.
Qed.

Lemma task_returns cfg dry_run allow_fractional :
  ok (client_state rest cfg) ->
  exists r,
    fst (_submit_orders_for_account rest float_str cfg dry_run allow_fractional)
    = Returned r.
Proof.
  intro Hok. rewrite task_unfold.
  destruct Hrel as (Hacc & _ & _).
  destruct (Hacc (client_state rest cfg) Hok) as (acct & w1 & E & Hok1).
  rewrite E.
  destruct (loop_returns cfg dry_run allow_fractional acct
              (AccountConfig.allocations cfg) (empty_summary cfg)
              (after_snapshot w1) Hok1) as (r & s' & El).
  rewrite El. exists r. reflexivity.
Qed.
End Totality.

(** ** The aggregate *)

Section FanOutFacts.
Context {W : Type}.
Variable rest : Client W.
Variable float_str : Q -> string.

Lemma fan_out_returned completion accounts dry_run allow_fractional reports :
  fan_out_orders rest float_str completion accounts dry_run allow_fractional
    = Returned reports
  <-> map (task_outcome rest float_str dry_run allow_fractional) accounts
      = map Returned reports.
Proof. unfold fan_out_orders. apply gather_returned. Qed.

Lemma fan_out_aligned accounts dry_run allow_fractional :
  forall reports,
  map (task_outcome rest float_str dry_run allow_fractional) accounts = map Returned reports ->
  Forall2 (fun cfg r => task_outcome rest float_str dry_run allow_fractional cfg = Returned r)
    accounts reports.
Proof.
  induction accounts as [|cfg accounts IH]; intros [|r reports] H;
    try discriminate; constructor.
  - simpl in H. inversion H. reflexivity.
  - apply IH. simpl in H. inversion H. reflexivity.
Qed.

Lemma fan_out_total completion accounts dry_run allow_fractional :
  (forall cfg, In cfg accounts ->
     exists r, task_outcome rest float_str dry_run allow_fractional cfg = Returned r) ->
  exists reports,
    fan_out_orders rest float_str completion accounts dry_run allow_fractional
    = Returned reports.
Proof.
  intro Hall.
  assert (E : exists reports,
    map (task_outcome rest float_str dry_run allow_fractional) accounts = map Returned reports).
  { induction accounts as [|cfg accs IH].
    - exists []. reflexivity.
    - destruct (Hall cfg (or_introl eq_refl)) as [r Hr].
      destruct IH as [reports Hreports].
      + intros c Hc. apply Hall. right. exact Hc.
      + exists (r :: reports). simpl. rewrite Hr, Hreports. reflexivity. }
  destruct E as [reports E]. exists reports.
  apply fan_out_returned. exact E.
Qed.
End FanOutFacts.

(** ** Account-level failures *)

(** C1, as amended: when the snapshot fetch of one configured account
    fails, the fan-out returns no report at all; it raises the exception of
    one of the account tasks that raised, whatever the order in which the
    tasks complete. *)
Theorem snapshot_failure_aborts_run {W : Type} (rest : Client W)
  (float_str : Q -> string) (completion : list nat)
  (accounts : list AccountConfig.t) (dry_run allow_fractional : bool)
  (cfg : AccountConfig.t) (e : Exception) (w' : W) :
  In cfg accounts ->
  get_account rest (client_state rest cfg) = (Raised e, w') ->
  exists e',
    fan_out_orders rest float_str completion accounts dry_run allow_fractional
      = Raised e' /\
    exists cfg', In cfg' accounts /\
      task_outcome rest float_str dry_run allow_fractional cfg' = Raised e'.
Proof.
  intros Hin Hfail.
  assert (Hout : In (Raised e)
            (map (task_outcome rest float_str dry_run allow_fractional) accounts)).
  { apply in_map_iff. exists cfg. split; [|exact Hin].
    unfold task_outcome.
    rewrite (task_snapshot_raises _ _ _ _ _ _ _ Hfail). reflexivity. }
  destruct (gather_raises completion _ _ Hout) as [e' [Hg Hin']].
  exists e'. split; [exact Hg|].
  apply in_map_iff in Hin'. destruct Hin' as [cfg' [Hc Hi]].
  exists cfg'. split; assumption.
Qed.

Lemma snapshot_failure_aborts_run_witness :
  In cfg_B [cfg_A; cfg_B; cfg_C] /\
  exists e',
    fan_out_orders (scripted scripts_B_down) decimal_str [2; 0; 1]%nat
      [cfg_A; cfg_B; cfg_C] false true = Raised e' /\
    exists cfg', In cfg' [cfg_A; cfg_B; cfg_C] /\
      task_outcome (scripted scripts_B_down) decimal_str false true cfg'
        = Raised e'.
Proof.
  split; [right; left; reflexivity|].
  apply (snapshot_failure_aborts_run (scripted scripts_B_down) decimal_str
           [2; 0; 1]%nat [cfg_A; cfg_B; cfg_C] false true cfg_B
           (OtherError "connection refused") (scripts_B_down "B")).
  - right; left; reflexivity.
  - reflexivity.
Defined.

(** C1 as stated fails: with three accounts of which the second cannot be
    reached, the tasks of the first and the third produce their reports, yet
    the run returns no list of reports. *)
Lemma sibling_reports_are_discarded :
  (exists r, task_outcome (scripted scripts_B_down) decimal_str true true cfg_A
             = Returned r) /\
  (exists r, task_outcome (scripted scripts_B_down) decimal_str true true cfg_C
             = Returned r) /\
  fst (get_account (scripted scripts_B_down)
         (client_state (scripted scripts_B_down) cfg_B))
    = Raised (OtherError "connection refused") /\
  ~ exists reports,
      fan_out_orders (scripted scripts_B_down) decimal_str [0; 1; 2]%nat
        [cfg_A; cfg_B; cfg_C] true true = Returned reports.
Proof.
  split; [eexists; vm_compute; reflexivity|].
  split; [eexists; vm_compute; reflexivity|].
  split; [reflexivity|].
  intros [reports H]. vm_compute in H. discriminate.
Qed.

(** ** Ordering of the reports *)

(** C8: whatever the completion order, the list the fan-out returns has the
    length of the input list and its i-th report is the one produced by the
    task of the i-th account definition; it returns such a list whenever
    every account task returns. *)
Theorem reports_follow_input_order {W : Type} (rest : Client W)
  (float_str : Q -> string) (completion : list nat)
  (accounts : list AccountConfig.t) (dry_run allow_fractional : bool) :
  (forall reports,
     fan_out_orders rest float_str completion accounts dry_run allow_fractional
       = Returned reports ->
     List.length reports = List.length accounts /\
     forall i cfg, nth_error accounts i = Some cfg ->
       exists r, nth_error reports i = Some r /\
         task_outcome rest float_str dry_run allow_fractional cfg = Returned r /\
         account r = AccountConfig.name cfg) /\
  ((forall cfg, In cfg accounts ->
      exists r, task_outcome rest float_str dry_run allow_fractional cfg
                = Returned r) ->
   exists reports,
     fan_out_orders rest float_str completion accounts dry_run allow_fractional
       = Returned reports).
Proof.
  split; [|apply fan_out_total].
  intros reports H. apply fan_out_returned in H.
  apply fan_out_aligned in H.
  split.
  - symmetry. apply (Forall2_length H).
  - clear completion. induction H as [|cfg0 r0 accs reps H0 Htl IH];
      intros i cfg Hi.
    + destruct i; discriminate.
    + destruct i as [|i]; simpl in Hi.
      * inversion Hi; subst. exists r0. split; [reflexivity|].
        split; [exact H0|].
        apply (task_counts _ _ _ _ _ _ H0).
      * apply (IH i cfg Hi).
Qed.

Lemma reports_follow_input_order_witness :
  exists reports,
    fan_out_orders (scripted scripts_all_up) decimal_str [2; 0; 1]%nat
      [cfg_A; cfg_B; cfg_C] true true = Returned reports /\
    map account reports = ["A"; "B"; "C"].
Proof.
  destruct (reports_follow_input_order (scripted scripts_all_up) decimal_str
              [2; 0; 1]%nat [cfg_A; cfg_B; cfg_C] true true) as [Hsound Htotal].
  destruct Htotal as [reports Hrep].
  - intros cfg [<-|[<-|[<-|[]]]]; eexists; vm_compute; reflexivity.
  - exists reports. split; [exact Hrep|].
    destruct (Hsound reports Hrep) as [Hlen Hnth].
    destruct (Hnth 0%nat cfg_A eq_refl) as (rA & HA & _ & NA).
    destruct (Hnth 1%nat cfg_B eq_refl) as (rB & HB & _ & NB).
    destruct (Hnth 2%nat cfg_C eq_refl) as (rC & HC & _ & NC).
    destruct reports as [|x0 [|x1 [|x2 [|x3 tl]]]]; try discriminate.
    simpl in HA, HB, HC. inversion HA; inversion HB; inversion HC; subst.
    simpl. rewrite NA, NB, NC. reflexivity.
Defined.

(** ** Completeness of the reports *)

(** a returning step files the rule under exactly one of the two lists *)
Lemma step_classifies {W : Type} (rest : Client W) (float_str : Q -> string)
  cfg dry_run allow_fractional acct alloc summary (s s' : RunState W) summary' :
  process_allocation rest float_str cfg dry_run allow_fractional acct alloc
    summary s = (Returned summary', s') ->
  (exists e, summary' = add_submitted summary e /\
             entry_symbol e = OrderAllocation.symbol alloc /\
             passes_minimum cfg acct alloc = true) \/
  (exists k, summary' = add_skipped summary k /\
             sk_symbol k = OrderAllocation.symbol alloc /\
             (passes_minimum cfg acct alloc = false ->
              k = below_min_entry float_str cfg acct alloc)).
Proof.
  intro Hstep.
  destruct (step_cases _ _ _ _ _ _ _ _ _ _ _ Hstep)
    as [(e & -> & Hsym & Hmin) | (k & -> & Hsym)].
  - left. exists e. split; [reflexivity|]. split; [exact Hsym|].
    unfold passes_minimum. apply Qltb_ge in Hmin. rewrite Hmin. reflexivity.
  - right. exists k. split; [reflexivity|]. split; [exact Hsym|].
    intro Hp. unfold passes_minimum in Hp. apply negb_false_iff in Hp.
    apply Qltb_lt in Hp.
    rewrite (step_below_min _ _ _ _ _ _ _ _ _ Hp) in Hstep.
    inversion Hstep as [Heq]. apply app_inv_head in Heq.
    inversion Heq. reflexivity.
Qed.

(** the loop files every rule exactly once, in order, after what the summary
    already holds *)
Lemma loop_partition {W : Type} (rest : Client W) (float_str : Q -> string)
  cfg dry_run allow_fractional acct allocs :
  forall summary (s s' : RunState W) r,
  process_allocations rest float_str cfg dry_run allow_fractional acct
    allocs summary s = (Returned r, s') ->
  exists sub sk,
    submitted r = (submitted summary ++ sub)%list /\
    skipped r = (skipped summary ++ sk)%list /\
    Partitioned float_str cfg acct allocs sub sk.
Proof.
  induction allocs as [|alloc allocs IH]; intros summary s s' r Hrun.
  - inversion Hrun; subst. exists [], []. rewrite !app_nil_r.
    split; [reflexivity|]. split; [reflexivity | constructor].
  - rewrite loop_cons in Hrun.
    destruct (process_allocation rest float_str cfg dry_run allow_fractional
                acct alloc summary s) as [[summary1|x] s1] eqn:Hstep;
      [|discriminate].
    destruct (IH _ _ _ _ Hrun) as (sub & sk & Hsub & Hsk & Hpart).
    destruct (step_classifies _ _ _ _ _ _ _ _ _ _ _ Hstep)
      as [(e & -> & Hsym & Hp) | (k & -> & Hsym & Hp)]; simpl in Hsub, Hsk.
    + exists (e :: sub), sk. rewrite Hsub, Hsk, <- app_assoc.
      split; [reflexivity|]. split; [reflexivity|].
      apply part_submitted; assumption.
    + exists sub, (k :: sk). rewrite Hsub, Hsk, <- app_assoc.
      split; [reflexivity|]. split; [reflexivity|].
      apply part_skipped; assumption.
Qed.

Lemma task_partition {W : Type} (rest : Client W) (float_str : Q -> string)
  cfg dry_run allow_fractional r :
  task_outcome rest float_str dry_run allow_fractional cfg = Returned r ->
  exists acct w1,
    get_account rest (client_state rest cfg) = (Returned acct, w1) /\
    Partitioned float_str cfg acct (AccountConfig.allocations cfg)
      (submitted r) (skipped r).
Proof.
  intro H.
  destruct (task_returned _ _ _ _ _ _ H) as (acct & w1 & s' & Hacc & Hloop).
  exists acct, w1. split; [exact Hacc|].
  destruct (loop_partition _ _ _ _ _ _ _ _ _ _ _ Hloop)
    as (sub & sk & Hsub & Hsk & Hpart).
  simpl in Hsub, Hsk. rewrite Hsub, Hsk. exact Hpart.
Qed.

Lemma aligned_complete {W : Type} (rest : Client W) (float_str : Q -> string)
  (dry_run allow_fractional : bool) (accounts : list AccountConfig.t)
  (reports : list AccountSummary) :
  Forall2 (fun cfg r =>
             task_outcome rest float_str dry_run allow_fractional cfg = Returned r)
    accounts reports ->
  Forall2 (fun cfg r =>
             (exists acct w1,
                get_account rest (client_state rest cfg) = (Returned acct, w1) /\
                Partitioned float_str cfg acct (AccountConfig.allocations cfg)
                  (submitted r) (skipped r)) /\
             (List.length (submitted r) + List.length (skipped r)
              = List.length (AccountConfig.allocations cfg))%nat)
    accounts reports /\
  total_entries reports = total_allocations accounts.
Proof.
  induction 1 as [|cfg r accs reps H0 Htl [IH1 IH2]].
  - split; [constructor | reflexivity].
  - destruct (task_counts _ _ _ _ _ _ H0) as [_ Hc].
    split.
    + constructor; [|exact IH1].
      split; [apply (task_partition _ _ _ _ _ _ H0) | exact Hc].
    + unfold total_entries, total_allocations in *. simpl.
      unfold entries at 1. rewrite Hc, IH2. reflexivity.
Qed.

(** C3, as amended: in every aggregate the fan-out returns, every allocation
    of every account appears exactly once: the submitted and the skipped
    entries of an account's report split its allocations, in order, each
    allocation having one entry that bears its symbol, a submitted one only
    if its notional reaches the minimum and the below-minimum entry if it
    does not; so each report holds as many entries as the account has
    allocations, and the entries add up to the allocations of all accounts.
    The fan-out returns an aggregate whenever the client is reliable on the
    states of the configured accounts (every snapshot fetch and price lookup
    answers, with a nonzero price, and a submission fails only with
    [APIError]); it returns none when the snapshot fetch of a configured
    account fails. *)
Theorem returned_reports_are_complete {W : Type} (rest : Client W)
  (float_str : Q -> string) (completion : list nat)
  (accounts : list AccountConfig.t) (dry_run allow_fractional : bool) :
  (forall reports,
     fan_out_orders rest float_str completion accounts dry_run allow_fractional
       = Returned reports ->
     Forall2 (fun cfg r =>
                (exists acct w1,
                   get_account rest (client_state rest cfg)
                     = (Returned acct, w1) /\
                   Partitioned float_str cfg acct
                     (AccountConfig.allocations cfg)
                     (submitted r) (skipped r)) /\
                (List.length (submitted r) + List.length (skipped r)
                 = List.length (AccountConfig.allocations cfg))%nat)
       accounts reports /\
     total_entries reports = total_allocations accounts) /\
  (forall ok : W -> Prop,
   reliable rest ok ->
   (forall cfg, In cfg accounts -> ok (client_state rest cfg)) ->
   exists reports,
     fan_out_orders rest float_str completion accounts dry_run allow_fractional
       = Returned reports) /\
  (forall cfg e w',
     In cfg accounts ->
     get_account rest (client_state rest cfg) = (Raised e, w') ->
     forall reports,
       fan_out_orders rest float_str completion accounts dry_run
         allow_fractional <> Returned reports).
Proof.
  split; [|split].
  - intros reports H. apply fan_out_returned in H. apply fan_out_aligned in H.
    apply (aligned_complete _ _ _ _ _ _ H).
  - intros ok Hrel Hinit. apply fan_out_total.
    intros cfg Hin. apply (task_returns rest float_str ok Hrel).
    apply Hinit. exact Hin.
  - intros cfg e w' Hin Hfail reports Hret.
    apply fan_out_returned in Hret. apply fan_out_aligned in Hret.
    clear completion. induction Hret as [|cfg0 r accs reps H0 _ IH].
    + destruct Hin.
    + destruct Hin as [->|Hin]; [|apply (IH Hin)].
      unfold task_outcome in H0.
      rewrite (task_snapshot_raises _ _ _ _ _ _ _ Hfail) in H0. discriminate.
Qed.

Lemma scripted_all_up_reliable :
  reliable (scripted scripts_all_up) (fun w => w = healthy 10000 2000 200).
Proof.
  repeat split.
  - intros w ->. eexists. eexists. split; reflexivity.
  - intros sym w ->. eexists. eexists. split; [reflexivity|].
    split; [discriminate | reflexivity].
  - intros p w ->. eexists. split; [reflexivity|]. left. eexists. reflexivity.
Qed.

(** three accounts in live whole-share mode: an aggregate is returned, its
    reports split the rules of their accounts, four entries in all *)
Lemma returned_reports_are_complete_witness :
  exists reports,
    fan_out_orders (scripted scripts_all_up) decimal_str [1; 2; 0]%nat
      [cfg_A; cfg_B; cfg_C] false false = Returned reports /\
    Forall2 (fun cfg r =>
               exists acct,
                 Partitioned decimal_str cfg acct
                   (AccountConfig.allocations cfg) (submitted r) (skipped r))
      [cfg_A; cfg_B; cfg_C] reports /\
    total_entries reports = 4%nat.
Proof.
  destruct (returned_reports_are_complete (scripted scripts_all_up) decimal_str
              [1; 2; 0]%nat [cfg_A; cfg_B; cfg_C] false false)
    as (Hsound & Htotal & _).
  destruct (Htotal _ scripted_all_up_reliable) as [reports Hrep].
  - intros cfg _. reflexivity.
  - exists reports. split; [exact Hrep|].
    destruct (Hsound reports Hrep) as [Hall Hsum].
    split; [|exact Hsum].
    revert Hall. apply Forall2_impl.
    intros cfg r [(acct & w1 & _ & Hpart) _]. exists acct. exact Hpart.
Defined.

(** C3 as stated fails for some outcomes of the external calls: account A's
    two allocations are evaluated, and the first is submitted live, but the
    snapshot fetch of account B fails and no aggregate is returned. *)
Lemma evaluated_allocations_can_go_unreported :
  (exists r, task_outcome (scripted scripts_B_down) decimal_str false true cfg_A
             = Returned r /\ entries r = 2%nat) /\
  In (EvSubmitOrder (set_notional (base_payload rule_5pct) (50000 # 100)))
     (trace (snd (_submit_orders_for_account (scripted scripts_B_down)
                    decimal_str cfg_A false true))) /\
  ~ exists reports,
      fan_out_orders (scripted scripts_B_down) decimal_str [0; 1]%nat
        [cfg_A; cfg_B] false true = Returned reports /\
      total_entries reports = total_allocations [cfg_A; cfg_B].
Proof.
  split; [eexists; split; vm_compute; reflexivity|].
  split.
  - vm_compute. right. right. left. reflexivity.
  - intros [reports [H _]]. vm_compute in H. discriminate.
Qed.

(** ** The minimum-notional skip *)

(** C5: a rule whose resolved (capped) notional is strictly below its
    [min_notional] is skipped: the step returns the summary with one more
    skipped entry, whose reason contains the notional formatted with two
    decimals and the threshold, and leaves the client state and the trace
    as they were (no price lookup, no submission); in the report of a
    returning account task that entry is among the skipped ones. *)
Theorem below_minimum_is_skipped {W : Type} (rest : Client W)
  (float_str : Q -> string) (cfg : AccountConfig.t) (acct : Account)
  (alloc : OrderAllocation.t) :
  resolved_notional cfg acct alloc < OrderAllocation.min_notional alloc ->
  (forall dry_run allow_fractional summary (s : RunState W),
     process_allocation rest float_str cfg dry_run allow_fractional acct alloc
       summary s
     = (Returned
          (add_skipped summary
             {| sk_symbol := OrderAllocation.symbol alloc;
                sk_reason :=
                  below_min_reason float_str (resolved_notional cfg acct alloc)
                    (OrderAllocation.min_notional alloc) |}), s)) /\
  contains
    (below_min_reason float_str (resolved_notional cfg acct alloc)
       (OrderAllocation.min_notional alloc))
    (format_2f (resolved_notional cfg acct alloc)) /\
  contains
    (below_min_reason float_str (resolved_notional cfg acct alloc)
       (OrderAllocation.min_notional alloc))
    (float_str (OrderAllocation.min_notional alloc)) /\
  (forall dry_run allow_fractional w1 r,
     get_account rest (client_state rest cfg) = (Returned acct, w1) ->
     In alloc (AccountConfig.allocations cfg) ->
     task_outcome rest float_str dry_run allow_fractional cfg = Returned r ->
     In {| sk_symbol := OrderAllocation.symbol alloc;
           sk_reason :=
             below_min_reason float_str (resolved_notional cfg acct alloc)
               (OrderAllocation.min_notional alloc) |} (skipped r)).
Proof.
  intro Hlt.
  split; [|split; [|split]].
  - intros. apply step_below_min. exact Hlt.
  - apply below_min_reason_mentions.
  - apply below_min_reason_mentions.
  - intros dry_run allow_fractional w1 r Hacc Hin Hret.
    destruct (task_returned _ _ _ _ _ _ Hret) as (acct' & w1' & s' & Hacc' & Hloop).
    rewrite Hacc in Hacc'. inversion Hacc'; subst.
    apply (loop_below_min_skipped _ _ _ _ _ _ _ _ _ _ _ Hloop _ Hin Hlt).
Qed.

(** here the cap itself causes the skip: 5 percent of 10000 is 500, the cap
    brings it down to 0.50, below the minimum of 1 *)
Lemma below_minimum_is_skipped_witness :
  OrderAllocation.min_notional rule_5pct
    <= raw_notional cfg_cap_half acct_10k rule_5pct /\
  process_allocation (scripted scripts_all_up) decimal_str cfg_cap_half
    false false acct_10k rule_5pct (empty_summary cfg_cap_half)
    (start_state unreachable)
  = (Returned
       {| account := "A"; submitted := [];
          skipped := [ {| sk_symbol := "AAA";
                          sk_reason := "notional 0.50 below min 1.0" |} ] |},
     start_state unreachable).
Proof.
  split; [discriminate|].
  destruct (below_minimum_is_skipped (scripted scripts_all_up) decimal_str
              cfg_cap_half acct_10k rule_5pct) as [Hstep _].
  - reflexivity.
  - rewrite Hstep. reflexivity.
Defined.

(** ** Whole-share orders *)

(** C6: with [allow_fractional = false], for a rule that passes the minimum
    check and whose price lookup answers [price] (nonzero), the quantity is
    the floor of [notional / price], obtained by floor division; when it is
    0 the rule is skipped with a reason that contains the price, otherwise
    the order is dispatched with a payload carrying that integer quantity
    and no notional. *)
Theorem whole_share_quantity {W : Type} (rest : Client W)
  (float_str : Q -> string) (cfg : AccountConfig.t) (dry_run : bool)
  (acct : Account) (alloc : OrderAllocation.t) (summary : AccountSummary)
  (s : RunState W) (price : Q) (w' : W) (qty : Z) :
  OrderAllocation.min_notional alloc <= resolved_notional cfg acct alloc ->
  get_latest_trade rest (OrderAllocation.symbol alloc) (world s)
    = (Returned price, w') ->
  ~ price == 0 ->
  qty = Qfloor (resolved_notional cfg acct alloc / price) ->
  py_floordiv (resolved_notional cfg acct alloc) price = Returned (inject_Z qty) /\
  py_int (inject_Z qty) = qty /\
  (qty = 0%Z ->
   process_allocation rest float_str cfg dry_run false acct alloc summary s
   = (Returned
        (add_skipped summary
           {| sk_symbol := OrderAllocation.symbol alloc;
              sk_reason := zero_qty_reason float_str price |}),
      after_lookup alloc s w') /\
   contains (zero_qty_reason float_str price) (float_str price)) /\
  (qty <> 0%Z ->
   process_allocation rest float_str cfg dry_run false acct alloc summary s
   = dispatch rest cfg dry_run alloc (resolved_notional cfg acct alloc)
       (set_qty (base_payload alloc) qty) summary (after_lookup alloc s w') /\
   p_qty (set_qty (base_payload alloc) qty) = Some qty /\
   p_notional (set_qty (base_payload alloc) qty) = None).
Proof.
  intros Hmin Hlook Hp ->.
  pose proof (step_whole_share rest float_str cfg dry_run acct alloc summary s
                price w' Hmin Hlook Hp) as Hstep.
  split; [apply py_floordiv_returns; exact Hp|].
  split; [apply py_int_inject_Z|].
  split.
  - intro Hq. rewrite Hq in Hstep. simpl in Hstep.
    split; [exact Hstep | apply zero_qty_reason_mentions].
  - intro Hq. apply Z.eqb_neq in Hq. rewrite Hq in Hstep.
    split; [exact Hstep|]. split; reflexivity.
Qed.

(** notional 150 at price 200: quantity 0, skipped, the price in the reason *)
Lemma whole_share_quantity_witness :
  resolved_notional cfg_150 acct_10k rule_150 == 150 /\
  process_allocation (scripted scripts_all_up) decimal_str cfg_150 true false
    acct_10k rule_150 (empty_summary cfg_150)
    (start_state (healthy 10000 2000 200))
  = (Returned
       {| account := "A"; submitted := [];
          skipped := [ {| sk_symbol := "CCC";
                          sk_reason := "qty would be 0 with latest price 200.0" |} ] |},
     {| world := healthy 10000 2000 200;
        trace := [EvGetLatestTrade "CCC"] |}).
Proof.
  split; [reflexivity|].
  destruct (whole_share_quantity (scripted scripts_all_up) decimal_str cfg_150
              true acct_10k rule_150 (empty_summary cfg_150)
              (start_state (healthy 10000 2000 200)) 200
              (healthy 10000 2000 200) 0) as (_ & _ & Hzero & _).
  - discriminate.
  - reflexivity.
  - discriminate.
  - reflexivity.
  - destruct (Hzero eq_refl) as [Hstep _]. rewrite Hstep. reflexivity.
Defined.

(** a live dispatch sends exactly the payload it was given *)
Lemma dispatch_live_calls_submit {W : Type} (rest : Client W)
  cfg alloc notional payload summary (s : RunState W) :
  exists evs,
    trace (snd (dispatch rest cfg false alloc notional payload summary s))
    = (trace s ++ [EvLogInfo (AccountConfig.name cfg) false
                     (OrderAllocation.side alloc) (p_qty payload)
                     (OrderAllocation.symbol alloc)
                     (OrderAllocation.normalized_basis alloc
                        (AccountConfig.allocation_basis cfg)) notional;
                   EvSubmitOrder payload] ++ evs)%list.
Proof.
  unfold dispatch, bind, emit, try_except_APIError, remote, ret.
  cbn [world trace].
  destruct (submit_order rest payload (world s)) as [[id|e] w1].
  - exists []. simpl. rewrite <- !app_assoc. reflexivity.
  - destruct e; eexists; simpl; rewrite <- !app_assoc; simpl; reflexivity.
Qed.

(** ** Price-lookup failures *)

(** C2 fails on the code: the lookup for "BAD" raises [APIError], which is
    not caught; the account task raises, no report is produced, and the
    second rule of the account is never looked at. *)
Theorem price_lookup_failure_aborts_account :
  _submit_orders_for_account (scripted (fun _ => script_bad_symbol))
    decimal_str cfg_bad_first true false
  = (Raised (APIError "no trade found for BAD"),
     {| world := script_bad_symbol;
        trace := [EvGetAccount; EvGetLatestTrade "BAD"] |}).
Proof. vm_compute. reflexivity. Qed.

(** the same error raised by [submit_order] is caught and recorded *)
Lemma submit_failure_is_recorded {W : Type} (rest : Client W)
  cfg alloc notional payload summary (s : RunState W) msg w1 :
  submit_order rest payload (world s) = (Raised (APIError msg), w1) ->
  fst (dispatch rest cfg false alloc notional payload summary s)
  = Returned (add_skipped summary
                {| sk_symbol := OrderAllocation.symbol alloc;
                   sk_reason := msg |}).
Proof.
  intro H.
  unfold dispatch, bind, emit, try_except_APIError, remote, ret.
  cbn [world trace]. rewrite H. reflexivity.
Qed.

(** ** Dry runs *)

Section DryRunFacts.
Context {W : Type}.
Variable rest : Client W.
Variable float_str : Q -> string.

Lemma no_submit_snoc t e :
  no_submit t -> is_submit e = false -> no_submit (t ++ [e]).
Proof.
  intros Ht He. apply Forall_app. split; [exact Ht|].
  constructor; [exact He | constructor].
Qed.

Lemma step_dry_no_submit cfg allow_fractional acct alloc summary
  (s : RunState W) :
  no_submit (trace s) ->
  no_submit (trace (snd (process_allocation rest float_str cfg true
                           allow_fractional acct alloc summary s))).
Proof.
  intro Hs. unfold process_allocation.
  destruct (Qltb _ _); [exact Hs|].
  destruct allow_fractional.
  - rewrite dispatch_dry_run. simpl. apply no_submit_snoc; [exact Hs|reflexivity].
  - unfold bind at 1. unfold remote at 1.
    destruct (get_latest_trade rest _ (world s)) as [[price|e] w1];
      [|simpl; apply no_submit_snoc; [exact Hs|reflexivity]].
    unfold bind at 1. unfold raise_outcome.
    destruct (py_floordiv _ price) as [fl|e];
      [|simpl; apply no_submit_snoc; [exact Hs|reflexivity]].
    destruct (py_int fl =? 0)%Z.
    + simpl. apply no_submit_snoc; [exact Hs|reflexivity].
    + rewrite dispatch_dry_run. simpl.
      apply no_submit_snoc; [|reflexivity].
      apply no_submit_snoc; [exact Hs|reflexivity].
Qed.

Lemma loop_dry_no_submit cfg allow_fractional acct allocs :
  forall summary (s : RunState W),
  no_submit (trace s) ->
  no_submit (trace (snd (process_allocations rest float_str cfg true
                           allow_fractional acct allocs summary s))).
Proof.
  induction allocs as [|alloc allocs IH]; intros summary s Hs.
  - exact Hs.
  - rewrite loop_cons.
    pose proof (step_dry_no_submit cfg allow_fractional acct alloc summary s Hs)
      as Hstep.
    destruct (process_allocation rest float_str cfg true allow_fractional
                acct alloc summary s) as [[summary1|e] s1].
    + apply IH. exact Hstep.
    + exact Hstep.
Qed.

Lemma task_dry_no_submit cfg allow_fractional :
  no_submit (trace (snd (_submit_orders_for_account rest float_str cfg true
                           allow_fractional))).
Proof.
  rewrite task_unfold.
  destruct (get_account rest (client_state rest cfg)) as [[acct|e] w1].
  - apply loop_dry_no_submit. repeat constructor.
  - repeat constructor.
Qed.
End DryRunFacts.

Section TwoRuns.
Context {W1 W2 : Type}.
Variable rest1 : Client W1.
Variable rest2 : Client W2.
Variable float_str : Q -> string.
Variable ok1 : W1 -> Prop.
Variable ok2 : W2 -> Prop.
Variable snap : Outcome Account.
Variable prices : string -> Outcome Q.
Hypothesis Hfix1 : fixed_answers rest1 ok1 snap prices.
Hypothesis Hfix2 : fixed_answers rest2 ok2 snap prices.

Lemma in_step_snoc s1 s2 e :
  in_step ok1 ok2 s1 s2 ->
  in_step ok1 ok2 {| world := world s1; trace := trace s1 ++ [e] |}
          {| world := world s2; trace := trace s2 ++ [e] |}.
Proof. intros (Ht & H1 & H2). repeat split; simpl; congruence || assumption. Qed.

Lemma step_dry_same cfg allow_fractional acct alloc summary s1 s2 :
  in_step ok1 ok2 s1 s2 ->
  same_result ok1 ok2
    (process_allocation rest1 float_str cfg true allow_fractional acct alloc
       summary s1)
    (process_allocation rest2 float_str cfg true allow_fractional acct alloc
       summary s2).
Proof.
  intro Hin.
  destruct (Qltb (resolved_notional cfg acct alloc)
              (OrderAllocation.min_notional alloc)) eqn:Hmin.
  { pose proof (proj1 (Qltb_lt _ _) Hmin) as Hlt.
    rewrite (step_below_min rest1 _ _ _ _ _ _ _ _ Hlt).
    rewrite (step_below_min rest2 _ _ _ _ _ _ _ _ Hlt).
    split; [reflexivity|exact Hin]. }
  destruct allow_fractional.
  - pose proof (proj1 (Qltb_ge _ _) Hmin) as Hge.
    rewrite (step_fractional rest1 _ _ _ _ _ _ _ Hge).
    rewrite (step_fractional rest2 _ _ _ _ _ _ _ Hge).
    rewrite !dispatch_dry_run. split; [reflexivity|].
    apply in_step_snoc. exact Hin.
  - destruct Hin as (Ht & H1 & H2).
    pose proof Hfix1 as [_ Hp1]. pose proof Hfix2 as [_ Hp2].
    destruct (Hp1 (OrderAllocation.symbol alloc) _ H1) as [E1 K1].
    destruct (Hp2 (OrderAllocation.symbol alloc) _ H2) as [E2 K2].
    rewrite !step_whole_share_unfold by exact Hmin.
    destruct (get_latest_trade rest1 _ (world s1)) as [o1 w1].
    destruct (get_latest_trade rest2 _ (world s2)) as [o2 w2].
    simpl in E1, E2, K1, K2. subst o1 o2.
    assert (Hin' : in_step ok1 ok2 (after_lookup alloc s1 w1) (after_lookup alloc s2 w2)).
    { repeat split; simpl; congruence || assumption. }
    destruct (prices (OrderAllocation.symbol alloc)) as [price|e];
      [|split; [reflexivity|exact Hin']].
    destruct (py_floordiv _ price) as [fl|e];
      [|split; [reflexivity|exact Hin']].
    destruct (py_int fl =? 0)%Z; [split; [reflexivity|exact Hin']|].
    rewrite !dispatch_dry_run. split; [reflexivity|].
    apply (in_step_snoc _ _ _ Hin').
Qed.

Lemma loop_dry_same cfg allow_fractional acct allocs :
  forall summary s1 s2,
  in_step ok1 ok2 s1 s2 ->
  same_result ok1 ok2
    (process_allocations rest1 float_str cfg true allow_fractional acct allocs
       summary s1)
    (process_allocations rest2 float_str cfg true allow_fractional acct allocs
       summary s2).
Proof.
  induction allocs as [|alloc allocs IH]; intros summary s1 s2 Hin.
  - split; [reflexivity|exact Hin].
  - rewrite !loop_cons.
    destruct (step_dry_same cfg allow_fractional acct alloc summary s1 s2 Hin)
      as [Hr Hs].
    destruct (process_allocation rest1 _ _ _ _ _ _ _ s1) as [o1 t1].
    destruct (process_allocation rest2 _ _ _ _ _ _ _ s2) as [o2 t2].
    simpl in Hr, Hs. subst o2.
    destruct o1 as [summary1|e].
    + apply IH. exact Hs.
    + split; [reflexivity|exact Hs].
Qed.

Lemma task_dry_same cfg allow_fractional :
  ok1 (client_state rest1 cfg) -> ok2 (client_state rest2 cfg) ->
  same_result ok1 ok2
    (_submit_orders_for_account rest1 float_str cfg true allow_fractional)
    (_submit_orders_for_account rest2 float_str cfg true allow_fractional).
Proof.
  intros H1 H2. rewrite !task_unfold.
  pose proof Hfix1 as [Ha1 _]. pose proof Hfix2 as [Ha2 _].
  destruct (Ha1 _ H1) as [E1 K1]. destruct (Ha2 _ H2) as [E2 K2].
  destruct (get_account rest1 (client_state rest1 cfg)) as [o1 w1].
  destruct (get_account rest2 (client_state rest2 cfg)) as [o2 w2].
  simpl in E1, E2, K1, K2.
  rewrite <- E1 in E2. subst o2.
  destruct o1 as [acct|e].
  - apply loop_dry_same. repeat split; assumption.
  - split; [reflexivity|]. repeat split; assumption.
Qed.
End TwoRuns.

(** C7: a dry run never calls [submit_order], and two dry runs of the same
    configuration, on clients that give the same snapshot and the same
    prices, end with the same report (or the same exception) and the same
    trace of lookups and log records, whatever their submit operations
    would do. *)
Theorem dry_run_is_pure {W1 W2 : Type} (rest1 : Client W1) (rest2 : Client W2)
  (float_str : Q -> string) (cfg : AccountConfig.t) (allow_fractional : bool) :
  no_submit (trace (snd (_submit_orders_for_account rest1 float_str cfg true
                           allow_fractional))) /\
  (forall (ok1 : W1 -> Prop) (ok2 : W2 -> Prop) snap prices,
     fixed_answers rest1 ok1 snap prices ->
     fixed_answers rest2 ok2 snap prices ->
     ok1 (client_state rest1 cfg) ->
     ok2 (client_state rest2 cfg) ->
     fst (_submit_orders_for_account rest1 float_str cfg true allow_fractional)
     = fst (_submit_orders_for_account rest2 float_str cfg true allow_fractional)
     /\
     trace (snd (_submit_orders_for_account rest1 float_str cfg true
                   allow_fractional))
     = trace (snd (_submit_orders_for_account rest2 float_str cfg true
                     allow_fractional))).
Proof.
  split; [apply task_dry_no_submit|].
  intros ok1 ok2 snap prices Hf1 Hf2 H1 H2.
  destruct (task_dry_same rest1 rest2 float_str ok1 ok2 snap prices Hf1 Hf2
              cfg allow_fractional H1 H2) as [Hr [Ht _]].
  split; assumption.
Qed.

Lemma scripted_fixed_answers (w0 : Script) :
  fixed_answers (scripted (fun _ => w0)) (fun w => w = w0)
    (sc_account w0) (sc_price w0).
Proof.
  split.
  - intros w ->. split; reflexivity.
  - intros sym w ->. split; reflexivity.
Qed.

Lemma dry_run_is_pure_witness :
  fst (_submit_orders_for_account (scripted (fun _ => healthy 10000 2000 200))
         decimal_str cfg_A true false)
  = fst (_submit_orders_for_account (scripted (fun _ => rejecting 10000 2000 200))
           decimal_str cfg_A true false).
Proof.
  destruct (dry_run_is_pure (scripted (fun _ => healthy 10000 2000 200))
              (scripted (fun _ => rejecting 10000 2000 200))
              decimal_str cfg_A false) as [_ Hsame].
  destruct (Hsame (fun w => w = healthy 10000 2000 200)
              (fun w => w = rejecting 10000 2000 200)
              (Returned {| equity := 10000; cash := 2000 |})
              (fun _ => Returned 200)) as [Hr _].
  - apply (scripted_fixed_answers (healthy 10000 2000 200)).
  - apply (scripted_fixed_answers (rejecting 10000 2000 200)).
  - reflexivity.
  - reflexivity.
  - exact Hr.
Defined.

(** ** Submitted orders and the minimum *)

Lemma loop_submitted_count {W : Type} (rest : Client W) (float_str : Q -> string)
  cfg dry_run allow_fractional acct allocs :
  forall summary (s s' : RunState W) r,
  process_allocations rest float_str cfg dry_run allow_fractional acct
    allocs summary s = (Returned r, s') ->
  (List.length (submitted r)
   <= List.length (submitted summary)
      + List.length (filter (passes_minimum cfg acct) allocs))%nat.
Proof.
  induction allocs as [|alloc allocs IH]; intros summary s s' r Hrun.
  - inversion Hrun; subst. simpl. lia.
  - rewrite loop_cons in Hrun.
    destruct (process_allocation rest float_str cfg dry_run allow_fractional
                acct alloc summary s) as [[summary1|x] s1] eqn:Hstep;
      [|discriminate].
    pose proof (IH _ _ _ _ Hrun) as Hle.
    destruct (step_cases _ _ _ _ _ _ _ _ _ _ _ Hstep)
      as [[e1 [-> [_ Hm]]]|[k [-> _]]]; simpl in *.
    + apply Qltb_ge in Hm. unfold passes_minimum at 1. rewrite Hm. simpl.
      rewrite List.length_app in Hle. simpl in Hle. lia.
    + destruct (passes_minimum cfg acct alloc); simpl; lia.
Qed.

(** C9: in the report of an account task, every submitted entry bears the
    symbol of a rule whose resolved notional is at least its [min_notional],
    and there are no more submitted entries than such rules; a rule with a
    positive minimum and a notional of zero or less is skipped at once: the
    step adds the below-minimum entry and touches neither the client nor the
    trace, and that entry is in the report. *)
Theorem submitted_reach_minimum {W : Type} (rest : Client W)
  (float_str : Q -> string) (cfg : AccountConfig.t)
  (dry_run allow_fractional : bool) (acct : Account) (w1 : W)
  (r : AccountSummary) :
  get_account rest (client_state rest cfg) = (Returned acct, w1) ->
  task_outcome rest float_str dry_run allow_fractional cfg = Returned r ->
  (forall e, In e (submitted r) ->
     exists alloc, In alloc (AccountConfig.allocations cfg) /\
       entry_symbol e = OrderAllocation.symbol alloc /\
       OrderAllocation.min_notional alloc <= resolved_notional cfg acct alloc) /\
  (List.length (submitted r)
   <= List.length (filter (passes_minimum cfg acct)
                     (AccountConfig.allocations cfg)))%nat /\
  (forall alloc, In alloc (AccountConfig.allocations cfg) ->
     0 < OrderAllocation.min_notional alloc ->
     resolved_notional cfg acct alloc <= 0 ->
     In {| sk_symbol := OrderAllocation.symbol alloc;
           sk_reason :=
             below_min_reason float_str (resolved_notional cfg acct alloc)
               (OrderAllocation.min_notional alloc) |} (skipped r) /\
     forall summary (s : RunState W),
       process_allocation rest float_str cfg dry_run allow_fractional acct
         alloc summary s
       = (Returned
            (add_skipped summary
               {| sk_symbol := OrderAllocation.symbol alloc;
                  sk_reason :=
                    below_min_reason float_str
                      (resolved_notional cfg acct alloc)
                      (OrderAllocation.min_notional alloc) |}), s)).
Proof.
  intros Hacc Hret.
  destruct (task_returned _ _ _ _ _ _ Hret) as (acct' & w1' & s' & Hacc' & Hloop).
  rewrite Hacc in Hacc'. inversion Hacc'; subst acct' w1'.
  split; [|split].
  - intros e He.
    destruct (loop_submitted_origin _ _ _ _ _ _ _ _ _ _ _ Hloop e He)
      as [[]|Hex].
    exact Hex.
  - apply (loop_submitted_count _ _ _ _ _ _ _ _ _ _ _ Hloop).
  - intros alloc Hin Hmin Hnot.
    assert (Hlt : resolved_notional cfg acct alloc
                  < OrderAllocation.min_notional alloc)
      by (eapply Qle_lt_trans; eassumption).
    split.
    + apply (loop_below_min_skipped _ _ _ _ _ _ _ _ _ _ _ Hloop _ Hin Hlt).
    + intros summary s. apply step_below_min. exact Hlt.
Qed.

(** negative cash: 5 percent of -5000 is -250, skipped in live mode *)
Lemma submitted_reach_minimum_witness :
  resolved_notional cfg_margin_default_min acct_margin rule_5pct <= 0 /\
  In {| sk_symbol := "AAA"; sk_reason := "notional -250.00 below min 1.0" |}
     (skipped
        {| account := "M"; submitted := [];
           skipped := [ {| sk_symbol := "AAA";
                           sk_reason := "notional -250.00 below min 1.0" |} ] |}).
Proof.
  split; [discriminate|].
  destruct (submitted_reach_minimum (scripted scripts_margin) decimal_str
              cfg_margin_default_min false true acct_margin
              (healthy 10000 (-5000) 200)
              {| account := "M"; submitted := [];
                 skipped := [ {| sk_symbol := "AAA";
                                 sk_reason := "notional -250.00 below min 1.0" |} ] |})
    as (_ & _ & Hskip).
  - reflexivity.
  - reflexivity.
  - destruct (Hskip rule_5pct) as [Hin _].
    + left. reflexivity.
    + reflexivity.
    + discriminate.
    + exact Hin.
Defined.

(** ** Bounds on whole-share quantities *)

(** C10, as amended: for a rule dispatched in whole-share mode at a positive
    price, the quantity [q] is nonzero and
    [q * price <= notional < (q + 1) * price]; it is at least 1 when the
    rule's [min_notional] is not negative. *)
Theorem whole_share_bounds {W : Type} (rest : Client W)
  (float_str : Q -> string) (cfg : AccountConfig.t) (dry_run : bool)
  (acct : Account) (alloc : OrderAllocation.t) (summary : AccountSummary)
  (s : RunState W) (price : Q) (w' : W) (qty : Z) :
  OrderAllocation.min_notional alloc <= resolved_notional cfg acct alloc ->
  get_latest_trade rest (OrderAllocation.symbol alloc) (world s)
    = (Returned price, w') ->
  0 < price ->
  qty = Qfloor (resolved_notional cfg acct alloc / price) ->
  qty <> 0%Z ->
  process_allocation rest float_str cfg dry_run false acct alloc summary s
  = dispatch rest cfg dry_run alloc (resolved_notional cfg acct alloc)
      (set_qty (base_payload alloc) qty) summary (after_lookup alloc s w') /\
  inject_Z qty * price <= resolved_notional cfg acct alloc /\
  resolved_notional cfg acct alloc < (inject_Z qty + 1) * price /\
  (0 <= OrderAllocation.min_notional alloc -> (1 <= qty)%Z).
Proof.
  intros Hmin Hlook Hp -> Hq.
  assert (Hne : ~ price == 0) by (intro E; rewrite E in Hp; discriminate).
  split.
  - rewrite (step_whole_share rest float_str cfg dry_run acct alloc summary s
               price w' Hmin Hlook Hne).
    apply Z.eqb_neq in Hq. rewrite Hq. reflexivity.
  - destruct (floor_quotient_bounds (resolved_notional cfg acct alloc) price Hp)
      as [Hlo Hhi].
    split; [exact Hlo|]. split; [exact Hhi|].
    intro H0.
    assert (Hn : 0 <= resolved_notional cfg acct alloc)
      by (eapply Qle_trans; eassumption).
    assert (Hquot : 0 <= resolved_notional cfg acct alloc / price).
    { apply Qle_shift_div_l; [exact Hp|]. rewrite Qmult_0_l. exact Hn. }
    apply Qfloor_resp_le in Hquot. change (Qfloor 0) with 0%Z in Hquot. lia.
Qed.

(** 450 at a price of 200: two shares, costing 400 *)
Lemma whole_share_bounds_witness :
  inject_Z 2 * 200 <= resolved_notional cfg_cap_450 acct_10k rule_5pct /\
  resolved_notional cfg_cap_450 acct_10k rule_5pct < (inject_Z 2 + 1) * 200.
Proof.
  destruct (whole_share_bounds (scripted scripts_all_up) decimal_str cfg_cap_450
              true acct_10k rule_5pct (empty_summary cfg_cap_450)
              (start_state (healthy 10000 2000 200)) 200
              (healthy 10000 2000 200) 2) as (_ & Hlo & Hhi & _).
  - discriminate.
  - reflexivity.
  - reflexivity.
  - reflexivity.
  - discriminate.
  - split; assumption.
Defined.

(** C10 as stated fails: on a margin account with cash -5000, a rule of
    1 percent with [min_notional = -100] resolves to -50; at the positive
    price 200 the floor division gives -1, and an order for -1 shares is
    recorded as submitted. *)
Lemma negative_quantity_is_submitted :
  0 < 200 /\
  fst (_submit_orders_for_account (scripted scripts_margin) decimal_str
         cfg_margin true false)
  = Returned
      {| account := "M";
         submitted := [DryRunEntry (set_qty (base_payload rule_margin) (-1))];
         skipped := [] |} /\
  ~ (1 <= -1)%Z.
Proof.
  split; [reflexivity|]. split; [vm_compute; reflexivity | lia].
Qed.

(** * Further properties of the executor *)

(** ** Every run has one of the shapes *)

Section ShapeFacts.
Context {W : Type}.
Variable rest : Client W.
Variable float_str : Q -> string.

Lemma dispatch_live_unfold cfg alloc notional payload summary (s : RunState W) :
  dispatch rest cfg false alloc notional payload summary s
  = match submit_order rest payload (world s) with
    | (Returned id, w1) =>
        (Returned (add_submitted summary
                     (OrderEntry (OrderAllocation.symbol alloc) id)),
         extended s w1 [log_record cfg false alloc payload notional;
                        EvSubmitOrder payload])
    | (Raised (APIError msg), w1) =>
        (Returned (add_skipped summary (api_skip alloc msg)),
         extended s w1 [log_record cfg false alloc payload notional;
                        EvSubmitOrder payload;
                        EvLogException (OrderAllocation.symbol alloc)
                          (AccountConfig.name cfg) msg])
    | (Raised e, w1) =>
        (Raised e,
         extended s w1 [log_record cfg false alloc payload notional;
                        EvSubmitOrder payload])
    end.
Proof.
  unfold dispatch, bind, emit, try_except_APIError, remote, ret, extended.
  cbn [world trace].
  destruct (submit_order rest payload (world s)) as [[id|e] w1].
  - rewrite <- app_assoc. reflexivity.
  - destruct e; rewrite <- ?app_assoc; simpl; rewrite <- ?app_assoc;
      reflexivity.
Qed.

Lemma dispatch_shape cfg dry_run alloc notional payload summary
  (s : RunState W) :
  exists evs res w',
    dispatch rest cfg dry_run alloc notional payload summary s
    = (res, extended s w' evs) /\
    DispatchShape cfg dry_run alloc notional payload summary evs res.
Proof.
  destruct dry_run.
  - rewrite dispatch_dry_run. do 3 eexists. split.
    + unfold extended. reflexivity.
    + apply ds_dry. reflexivity.
  - rewrite dispatch_live_unfold.
    destruct (submit_order rest payload (world s)) as [[id|e] w1].
    + do 3 eexists. split; [reflexivity|]. apply ds_accepted. reflexivity.
    + destruct e as [msg|msg|].
      * do 3 eexists. split; [reflexivity|]. apply ds_api_error. reflexivity.
      * do 3 eexists. split; [reflexivity|].
        apply ds_other_error; [reflexivity | discriminate].
      * do 3 eexists. split; [reflexivity|].
        apply ds_other_error; [reflexivity | discriminate].
Qed.

Lemma extended_nil (s : RunState W) : s = extended s (world s) [].
Proof. destruct s. unfold extended. simpl. rewrite app_nil_r. reflexivity. Qed.

Lemma extended_extended (s : RunState W) w1 evs1 w2 evs2 :
  extended (extended s w1 evs1) w2 evs2 = extended s w2 (evs1 ++ evs2).
Proof. unfold extended. simpl. rewrite app_assoc. reflexivity. Qed.

Lemma step_shape cfg dry_run allow_fractional acct alloc summary
  (s : RunState W) :
  exists evs res w',
    process_allocation rest float_str cfg dry_run allow_fractional acct alloc
      summary s = (res, extended s w' evs) /\
    StepShape float_str cfg dry_run allow_fractional acct alloc summary evs res.
Proof.
  destruct (passes_minimum cfg acct alloc) eqn:Hp;
    pose proof Hp as Hp'; unfold passes_minimum in Hp'.
  2:{ apply negb_false_iff in Hp'. apply Qltb_lt in Hp'.
      rewrite (step_below_min _ _ _ _ _ _ _ _ _ Hp').
      eexists [], _, (world s). split.
      - f_equal. apply extended_nil.
      - apply ss_below_min. exact Hp. }
  apply negb_true_iff in Hp'. pose proof (proj1 (Qltb_ge _ _) Hp') as Hge.
  destruct allow_fractional.
  - rewrite (step_fractional _ _ _ _ _ _ _ _ Hge).
    destruct (dispatch_shape cfg dry_run alloc (resolved_notional cfg acct alloc)
                (set_notional (base_payload alloc)
                   (py_round2 (resolved_notional cfg acct alloc))) summary s)
      as (evs & res & w' & E & Hs).
    exists evs, res, w'. split; [exact E|].
    apply ss_fractional; [exact Hp | reflexivity | exact Hs].
  - rewrite (step_whole_share_unfold _ _ _ _ _ _ _ _ Hp').
    destruct (get_latest_trade rest (OrderAllocation.symbol alloc) (world s))
      as [[price|e] w1].
    + unfold py_floordiv. destruct (Qeq_bool price 0) eqn:Hz.
      * apply Qeq_bool_iff in Hz.
        eexists [EvGetLatestTrade (OrderAllocation.symbol alloc)], _, w1.
        split; [reflexivity|].
        apply (ss_zero_price _ _ _ _ _ _ _ price); [exact Hp|reflexivity|exact Hz].
      * apply Qeq_bool_neq in Hz. rewrite py_int_inject_Z.
        destruct (Qfloor (resolved_notional cfg acct alloc / price) =? 0)%Z
          eqn:Hq.
        -- apply Z.eqb_eq in Hq.
           eexists [EvGetLatestTrade (OrderAllocation.symbol alloc)], _, w1.
           split; [reflexivity|].
           apply ss_zero_qty; [exact Hp|reflexivity|exact Hz|exact Hq].
        -- apply Z.eqb_neq in Hq.
           destruct (dispatch_shape cfg dry_run alloc
                       (resolved_notional cfg acct alloc)
                       (set_qty (base_payload alloc)
                          (Qfloor (resolved_notional cfg acct alloc / price)))
                       summary (after_lookup alloc s w1))
             as (evs & res & w' & E & Hs).
           exists (EvGetLatestTrade (OrderAllocation.symbol alloc) :: evs),
             res, w'.
           split.
           ++ rewrite E. f_equal.
              change (after_lookup alloc s w1)
                with (extended s w1
                        [EvGetLatestTrade (OrderAllocation.symbol alloc)]).
              rewrite extended_extended. reflexivity.
           ++ apply (ss_whole_share _ _ _ _ _ _ _ price);
                [exact Hp|reflexivity|exact Hz|exact Hq|exact Hs].
    + eexists [EvGetLatestTrade (OrderAllocation.symbol alloc)], _, w1.
      split; [reflexivity|].
      apply ss_lookup_raised; [exact Hp|reflexivity].
Qed.

Lemma loop_shape cfg dry_run allow_fractional acct allocs :
  forall summary (s : RunState W),
  exists evs res w',
    process_allocations rest float_str cfg dry_run allow_fractional acct allocs
      summary s = (res, extended s w' evs) /\
    LoopShape float_str cfg dry_run allow_fractional acct allocs summary evs res.
Proof.
  induction allocs as [|alloc allocs IH]; intros summary s.
  - exists [], (Returned summary), (world s). split.
    + simpl. unfold ret. f_equal. apply extended_nil.
    + constructor.
  - rewrite loop_cons.
    destruct (step_shape cfg dry_run allow_fractional acct alloc summary s)
      as (evs & res & w1 & E & Hs).
    rewrite E. destruct res as [summary1|e].
    + destruct (IH summary1 (extended s w1 evs)) as (evs' & res' & w2 & E' & Hl).
      exists (evs ++ evs')%list, res', w2. split.
      * rewrite E', extended_extended. reflexivity.
      * eapply ls_next; eassumption.
    + exists evs, (Raised e), w1. split; [reflexivity|].
      apply ls_raised. exact Hs.
Qed.

(** the whole task: the snapshot fetch, then the loop *)
Lemma task_shape cfg dry_run allow_fractional :
  (exists e w1,
     get_account rest (client_state rest cfg) = (Raised e, w1) /\
     _submit_orders_for_account rest float_str cfg dry_run allow_fractional
     = (Raised e, after_snapshot w1)) \/
  (exists acct w1 evs res w',
     get_account rest (client_state rest cfg) = (Returned acct, w1) /\
     _submit_orders_for_account rest float_str cfg dry_run allow_fractional
     = (res, {| world := w'; trace := EvGetAccount :: evs |}) /\
     LoopShape float_str cfg dry_run allow_fractional acct
       (AccountConfig.allocations cfg) (empty_summary cfg) evs res).
Proof.
  rewrite task_unfold.
  destruct (get_account rest (client_state rest cfg)) as [[acct|e] w1] eqn:E.
  - right.
    destruct (loop_shape cfg dry_run allow_fractional acct
                (AccountConfig.allocations cfg) (empty_summary cfg)
                (after_snapshot w1)) as (evs & res & w' & El & Hl).
    exists acct, w1, evs, res, w'. split; [reflexivity|].
    split; [exact El | exact Hl].
  - left. exists e, w1. split; reflexivity.
Qed.
End ShapeFacts.

Ltac invert_shapes :=
  repeat match goal with
         | H : StepShape _ _ _ _ _ _ _ _ _ |- _ => inversion H; subst; clear H
         | H : DispatchShape _ _ _ _ _ _ _ _ |- _ => inversion H; subst; clear H
         end.

Lemma count_app (f : Event -> bool) (a b : list Event) :
  count f (a ++ b) = (count f a + count f b)%nat.
Proof. unfold count. rewrite filter_app, List.length_app. reflexivity. Qed.

Lemma lookups_app (a b : list Event) :
  lookups (a ++ b) = (lookups a ++ lookups b)%list.
Proof. unfold lookups. apply flat_map_app. Qed.

Lemma sent_app (a b : list Event) : sent (a ++ b) = (sent a ++ sent b)%list.
Proof. unfold sent. apply flat_map_app. Qed.

(** ** Remote calls of an account task *)

Lemma loop_no_snapshot float_str cfg dry_run allow_fractional acct allocs
  summary evs res :
  LoopShape float_str cfg dry_run allow_fractional acct allocs summary evs res ->
  count is_get_account evs = 0%nat.
Proof.
  induction 1 as [summary | alloc allocs summary evs e Hs
                 | alloc allocs summary evs summary' evs' res Hs Hl IH].
  - reflexivity.
  - invert_shapes; reflexivity.
  - rewrite count_app, IH. invert_shapes; reflexivity.
Qed.

(** X1: the account snapshot is fetched exactly once, before anything else:
    the trace of an account task starts with the [get_account] call and
    holds no other one, so every allocation is resolved against the same
    snapshot, whatever the orders submitted in between do to the account. *)
Theorem snapshot_fetched_once {W : Type} (rest : Client W)
  (float_str : Q -> string) (cfg : AccountConfig.t)
  (dry_run allow_fractional : bool) :
  exists later,
    trace (snd (_submit_orders_for_account rest float_str cfg dry_run
                  allow_fractional)) = EvGetAccount :: later /\
    count is_get_account later = 0%nat.
Proof.
  destruct (task_shape rest float_str cfg dry_run allow_fractional)
    as [(e & w1 & _ & E) | (acct & w1 & evs & res & w' & _ & E & Hl)];
    rewrite E; simpl.
  - exists []. split; reflexivity.
  - exists evs. split; [reflexivity|]. apply (loop_no_snapshot _ _ _ _ _ _ _ _ _ Hl).
Qed.

Lemma loop_fractional_no_lookup float_str cfg dry_run acct allocs summary
  evs res :
  LoopShape float_str cfg dry_run true acct allocs summary evs res ->
  lookups evs = [].
Proof.
  induction 1 as [summary | alloc allocs summary evs e Hs
                 | alloc allocs summary evs summary' evs' res Hs Hl IH].
  - reflexivity.
  - invert_shapes; try discriminate; reflexivity.
  - rewrite lookups_app, IH. invert_shapes; try discriminate; reflexivity.
Qed.

(** X2: with [allow_fractional = true] an account task never asks for a
    price: its trace holds no [get_latest_trade] call, in dry-run and in
    live mode alike. *)
Theorem fractional_mode_needs_no_price {W : Type} (rest : Client W)
  (float_str : Q -> string) (cfg : AccountConfig.t) (dry_run : bool) :
  lookups (trace (snd (_submit_orders_for_account rest float_str cfg dry_run
                         true))) = [].
Proof.
  destruct (task_shape rest float_str cfg dry_run true)
    as [(e & w1 & _ & E) | (acct & w1 & evs & res & w' & _ & E & Hl)];
    rewrite E; simpl.
  - reflexivity.
  - apply (loop_fractional_no_lookup _ _ _ _ _ _ _ _ Hl).
Qed.

Lemma loop_whole_share_lookups float_str cfg dry_run acct allocs summary
  evs r :
  LoopShape float_str cfg dry_run false acct allocs summary evs (Returned r) ->
  lookups evs
  = map OrderAllocation.symbol (filter (passes_minimum cfg acct) allocs).
Proof.
  remember (Returned r) as res eqn:Hres.
  induction 1 as [summary | alloc allocs summary evs e Hs
                 | alloc allocs summary evs summary' evs' res Hs Hl IH].
  - reflexivity.
  - discriminate.
  - rewrite lookups_app, (IH Hres). simpl.
    inversion Hs; subst; try discriminate;
      match goal with
      | H : passes_minimum _ _ _ = _ |- _ => rewrite H
      end; try reflexivity.
    simpl. f_equal.
    match goal with
    | H : DispatchShape _ _ _ _ _ _ _ _ |- _ => inversion H; subst; reflexivity
    end.
Qed.

(** X3: in whole-share mode a returning account task looks up the price of
    exactly the rules whose resolved notional reaches their minimum, once
    each and in the configured order; rules below their minimum cost no
    price lookup. *)
Theorem whole_share_lookups_follow_rules {W : Type} (rest : Client W)
  (float_str : Q -> string) (cfg : AccountConfig.t) (dry_run : bool)
  (acct : Account) (w1 : W) (r : AccountSummary) :
  get_account rest (client_state rest cfg) = (Returned acct, w1) ->
  task_outcome rest float_str dry_run false cfg = Returned r ->
  lookups (trace (snd (_submit_orders_for_account rest float_str cfg dry_run
                         false)))
  = map OrderAllocation.symbol
      (filter (passes_minimum cfg acct) (AccountConfig.allocations cfg)).
Proof.
  intros Hacc Hret. unfold task_outcome in Hret.
  destruct (task_shape rest float_str cfg dry_run false)
    as [(e & w0 & Hacc' & E) | (acct' & w0 & evs & res & w' & Hacc' & E & Hl)];
    rewrite E in *; simpl in *.
  - discriminate.
  - subst res. rewrite Hacc in Hacc'. inversion Hacc'; subst.
    apply (loop_whole_share_lookups _ _ _ _ _ _ _ _ Hl).
Qed.

Lemma whole_share_lookups_follow_rules_witness :
  lookups (trace (snd (_submit_orders_for_account (scripted scripts_all_up)
                         decimal_str cfg_A true false)))
  = ["AAA"].
Proof.
  rewrite (whole_share_lookups_follow_rules (scripted scripts_all_up)
             decimal_str cfg_A true {| equity := 10000; cash := 2000 |}
             (healthy 10000 2000 200)
             {| account := "A";
                submitted := [DryRunEntry (set_qty (base_payload rule_5pct) 2)];
                skipped := [below_min_entry decimal_str cfg_A
                              {| equity := 10000; cash := 2000 |} rule_tiny] |}).
  - reflexivity.
  - reflexivity.
  - reflexivity.
Defined.

(** ** The orders that are sent *)

Lemma notional_payload_well_formed alloc v :
  well_formed_payload (set_notional (base_payload alloc) v).
Proof. split; [reflexivity|]. left. exists v. split; reflexivity. Qed.

Lemma qty_payload_well_formed alloc q :
  q <> 0%Z -> well_formed_payload (set_qty (base_payload alloc) q).
Proof.
  intro Hq. split; [reflexivity|]. right. exists q.
  split; [reflexivity|]. split; [exact Hq | reflexivity].
Qed.

Lemma step_payloads float_str cfg dry_run allow_fractional acct alloc
  summary evs res :
  StepShape float_str cfg dry_run allow_fractional acct alloc summary evs res ->
  Forall well_formed_payload (sent evs) /\
  forall summary',
    res = Returned summary' ->
    (forall p, In (DryRunEntry p) (submitted summary) -> well_formed_payload p) ->
    forall p, In (DryRunEntry p) (submitted summary') -> well_formed_payload p.
Proof.
  intro Hs.
  assert (Hd : forall payload evs0 res0,
    well_formed_payload payload ->
    DispatchShape cfg dry_run alloc (resolved_notional cfg acct alloc) payload
      summary evs0 res0 ->
    Forall well_formed_payload (sent evs0) /\
    forall summary',
      res0 = Returned summary' ->
      (forall p, In (DryRunEntry p) (submitted summary) -> well_formed_payload p) ->
      forall p, In (DryRunEntry p) (submitted summary') -> well_formed_payload p).
  { intros payload evs0 res0 Hwf Hds.
    inversion Hds; subst; unfold log_record; simpl;
      (split; [repeat (constructor; try assumption)|]);
      intros summary' E Hold p Hin; inversion E; subst; simpl in Hin;
      try (apply Hold; exact Hin).
    - apply in_app_or in Hin. destruct Hin as [Hin|[Hin|[]]].
      + apply Hold. exact Hin.
      + inversion Hin; subst. exact Hwf.
    - apply in_app_or in Hin. destruct Hin as [Hin|[Hin|[]]].
      + apply Hold. exact Hin.
      + discriminate. }
  inversion Hs; subst.
  - split; [constructor|]. intros summary' E Hold p Hin.
    inversion E; subst. apply Hold. exact Hin.
  - eapply Hd; [apply notional_payload_well_formed | eassumption].
  - split; [constructor | discriminate].
  - split; [constructor | discriminate].
  - split; [constructor|]. intros summary' E Hold p Hin.
    inversion E; subst. apply Hold. exact Hin.
  - match goal with
    | Hq : Qfloor _ <> 0%Z, Hds : DispatchShape _ _ _ _ _ _ _ _ |- _ =>
        destruct (Hd _ _ _ (qty_payload_well_formed alloc _ Hq) Hds) as [A B]
    end.
    split; [exact A | exact B].
Qed.

Lemma loop_payloads float_str cfg dry_run allow_fractional acct allocs
  summary evs res :
  LoopShape float_str cfg dry_run allow_fractional acct allocs summary evs res ->
  Forall well_formed_payload (sent evs) /\
  forall r,
    res = Returned r ->
    (forall p, In (DryRunEntry p) (submitted summary) -> well_formed_payload p) ->
    forall p, In (DryRunEntry p) (submitted r) -> well_formed_payload p.
Proof.
  induction 1 as [summary | alloc allocs summary evs e Hs
                 | alloc allocs summary evs summary' evs' res Hs Hl IH].
  - split; [constructor|]. intros r E Hold. inversion E; subst. exact Hold.
  - destruct (step_payloads _ _ _ _ _ _ _ _ _ Hs) as [H1 _].
    split; [exact H1 | discriminate].
  - destruct (step_payloads _ _ _ _ _ _ _ _ _ Hs) as [H1 H2].
    destruct IH as [H3 H4]. split.
    + rewrite sent_app. apply Forall_app. split; assumption.
    + intros r E Hold. apply (H4 r E). apply (H2 summary' eq_refl Hold).
Qed.

(** X4: every order an account task hands to [submit_order], and every order
    a dry run records, has type "market" and names either a notional or a
    nonzero whole quantity, never both and never neither. *)
Theorem orders_are_well_formed {W : Type} (rest : Client W)
  (float_str : Q -> string) (cfg : AccountConfig.t)
  (dry_run allow_fractional : bool) :
  Forall well_formed_payload
    (sent (trace (snd (_submit_orders_for_account rest float_str cfg dry_run
                         allow_fractional)))) /\
  forall r p,
    task_outcome rest float_str dry_run allow_fractional cfg = Returned r ->
    In (DryRunEntry p) (submitted r) ->
    well_formed_payload p.
Proof.
  unfold task_outcome.
  destruct (task_shape rest float_str cfg dry_run allow_fractional)
    as [(e & w1 & _ & E) | (acct & w1 & evs & res & w' & _ & E & Hl)];
    rewrite E; simpl.
  - split; [constructor | discriminate].
  - destruct (loop_payloads _ _ _ _ _ _ _ _ _ Hl) as [H1 H2].
    split; [exact H1|].
    intros r p Hr Hin. apply (H2 r Hr); [|exact Hin].
    intros p0 [].
Qed.

Lemma orders_are_well_formed_witness :
  well_formed_payload (set_qty (base_payload rule_5pct) 2).
Proof.
  destruct (orders_are_well_formed (scripted scripts_all_up) decimal_str cfg_A
              true false) as [_ Hrep].
  apply (Hrep {| account := "A";
                 submitted := [DryRunEntry (set_qty (base_payload rule_5pct) 2)];
                 skipped := [below_min_entry decimal_str cfg_A
                               {| equity := 10000; cash := 2000 |} rule_tiny] |}).
  - reflexivity.
  - left. reflexivity.
Defined.

(** ** Live submissions and the report *)

Lemma loop_live_accounting float_str cfg allow_fractional acct allocs
  summary evs res :
  LoopShape float_str cfg false allow_fractional acct allocs summary evs res ->
  count is_log_info evs = count is_submit evs /\
  forall r,
    res = Returned r ->
    (count is_submit evs + List.length (submitted summary)
     = List.length (submitted r) + count is_log_exception evs)%nat.
Proof.
  induction 1 as [summary | alloc allocs summary evs e Hs
                 | alloc allocs summary evs summary' evs' res Hs Hl IH].
  - split; [reflexivity|]. intros r E. inversion E; subst.
    unfold count. simpl. lia.
  - split; [|discriminate]. invert_shapes; try discriminate; reflexivity.
  - destruct IH as [IH1 IH2]. rewrite !count_app. split.
    + rewrite IH1. f_equal. invert_shapes; try discriminate; reflexivity.
    + intros r E. specialize (IH2 r E).
      invert_shapes; try discriminate; simpl in *;
        rewrite ?List.length_app in *; simpl in *; unfold count in *;
        simpl in *; lia.
Qed.

(** X5: in live mode every dispatched order is logged once and sent once, and
    when the account task returns, the [submit_order] calls add up to the
    submitted entries of the report plus the logged submission failures: no
    call goes unreported. *)
Theorem live_calls_are_accounted_for {W : Type} (rest : Client W)
  (float_str : Q -> string) (cfg : AccountConfig.t) (allow_fractional : bool) :
  count is_log_info
    (trace (snd (_submit_orders_for_account rest float_str cfg false
                   allow_fractional)))
  = count is_submit
      (trace (snd (_submit_orders_for_account rest float_str cfg false
                     allow_fractional))) /\
  forall r,
    task_outcome rest float_str false allow_fractional cfg = Returned r ->
    count is_submit
      (trace (snd (_submit_orders_for_account rest float_str cfg false
                     allow_fractional)))
    = (List.length (submitted r)
       + count is_log_exception
           (trace (snd (_submit_orders_for_account rest float_str cfg false
                          allow_fractional))))%nat.
Proof.
  unfold task_outcome.
  destruct (task_shape rest float_str cfg false allow_fractional)
    as [(e & w1 & _ & E) | (acct & w1 & evs & res & w' & _ & E & Hl)];
    rewrite E; simpl.
  - split; [reflexivity | discriminate].
  - destruct (loop_live_accounting _ _ _ _ _ _ _ _ Hl) as [H1 H2].
    change (EvGetAccount :: evs) with ([EvGetAccount] ++ evs)%list.
    rewrite !count_app. simpl. split; [exact H1|].
    intros r Hr. specialize (H2 r Hr). simpl in H2. lia.
Qed.

Lemma live_calls_are_accounted_for_witness :
  count is_submit
    (trace (snd (_submit_orders_for_account
                   (scripted (fun _ => rejecting 10000 2000 200))
                   decimal_str cfg_A false true)))
  = 1%nat.
Proof.
  rewrite (proj2 (live_calls_are_accounted_for
                    (scripted (fun _ => rejecting 10000 2000 200))
                    decimal_str cfg_A true)
             {| account := "A"; submitted := [];
                skipped := [api_skip rule_5pct "insufficient buying power";
                            below_min_entry decimal_str cfg_A
                              {| equity := 10000; cash := 2000 |} rule_tiny] |}
             eq_refl).
  reflexivity.
Defined.

(** ** Shape of the report *)

Lemma subseq_refl {A : Type} (l : list A) : subseq l l.
Proof. induction l; constructor; assumption. Qed.

Lemma subseq_app_skip {A : Type} (l1 l2 : list A) (x : A) :
  subseq l1 l2 -> subseq l1 (l2 ++ [x]).
Proof.
  induction 1; simpl.
  - apply subseq_skip. constructor.
  - apply subseq_skip. assumption.
  - apply subseq_take. assumption.
Qed.

Lemma subseq_app_take {A : Type} (l1 l2 : list A) (x : A) :
  subseq l1 l2 -> subseq (l1 ++ [x]) (l2 ++ [x]).
Proof.
  induction 1; simpl.
  - apply subseq_take. constructor.
  - apply subseq_skip. assumption.
  - apply subseq_take. assumption.
Qed.

(** each returning step appends one entry, bearing the rule's symbol, to one
    of the two lists; a submitted one is tagged as the mode says *)
Lemma step_appends float_str cfg dry_run allow_fractional acct alloc
  summary evs summary' :
  StepShape float_str cfg dry_run allow_fractional acct alloc summary evs
    (Returned summary') ->
  (exists e, summary' = add_submitted summary e /\
             entry_symbol e = OrderAllocation.symbol alloc /\
             is_dry_entry e = dry_run) \/
  (exists k, summary' = add_skipped summary k /\
             sk_symbol k = OrderAllocation.symbol alloc).
Proof.
  intro Hs. inversion Hs; subst;
    try (right; eexists; split; reflexivity);
    match goal with
    | H : DispatchShape _ _ _ _ _ _ _ _ |- _ => inversion H; subst
    end;
    try (left; eexists; repeat split; reflexivity);
    right; eexists; split; reflexivity.
Qed.

Lemma loop_report_order float_str cfg dry_run allow_fractional acct allocs
  summary evs r :
  LoopShape float_str cfg dry_run allow_fractional acct allocs summary evs
    (Returned r) ->
  forall done,
  subseq (map entry_symbol (submitted summary)) done ->
  subseq (map sk_symbol (skipped summary)) done ->
  forallb (fun e => Bool.eqb (is_dry_entry e) dry_run) (submitted summary) = true ->
  subseq (map entry_symbol (submitted r))
    (done ++ map OrderAllocation.symbol allocs) /\
  subseq (map sk_symbol (skipped r))
    (done ++ map OrderAllocation.symbol allocs) /\
  forallb (fun e => Bool.eqb (is_dry_entry e) dry_run) (submitted r) = true.
Proof.
  remember (Returned r) as res eqn:Hres.
  induction 1 as [summary | alloc allocs summary evs e Hs
                 | alloc allocs summary evs summary' evs' res Hs Hl IH];
    intros done H1 H2 H3.
  - inversion Hres; subst. simpl. rewrite app_nil_r. repeat split; assumption.
  - discriminate.
  - specialize (IH Hres (done ++ [OrderAllocation.symbol alloc])%list).
    simpl. replace (done ++ OrderAllocation.symbol alloc
                      :: map OrderAllocation.symbol allocs)%list
      with ((done ++ [OrderAllocation.symbol alloc])
              ++ map OrderAllocation.symbol allocs)%list
      by (rewrite <- app_assoc; reflexivity).
    destruct (step_appends _ _ _ _ _ _ _ _ _ Hs)
      as [(e & -> & Hsym & Hdry) | (k & -> & Hsym)]; apply IH; simpl.
    + rewrite map_app. simpl. rewrite Hsym. apply subseq_app_take. exact H1.
    + apply subseq_app_skip. exact H2.
    + rewrite forallb_app, H3. simpl. rewrite Hdry.
      destruct dry_run; reflexivity.
    + apply subseq_app_skip. exact H1.
    + rewrite map_app. simpl. rewrite Hsym. apply subseq_app_take. exact H2.
    + exact H3.
Qed.

(** X6: the report keeps the configured order: the symbols of the submitted
    entries, and those of the skipped entries, each read in order, are the
    symbols of the account's rules with some left out; and the submitted
    entries of a dry run are all dry-run records, those of a live run all
    carry an order id. *)
Theorem report_keeps_configured_order {W : Type} (rest : Client W)
  (float_str : Q -> string) (cfg : AccountConfig.t)
  (dry_run allow_fractional : bool) (r : AccountSummary) :
  task_outcome rest float_str dry_run allow_fractional cfg = Returned r ->
  subseq (map entry_symbol (submitted r))
    (map OrderAllocation.symbol (AccountConfig.allocations cfg)) /\
  subseq (map sk_symbol (skipped r))
    (map OrderAllocation.symbol (AccountConfig.allocations cfg)) /\
  forallb (fun e => Bool.eqb (is_dry_entry e) dry_run) (submitted r) = true.
Proof.
  unfold task_outcome.
  destruct (task_shape rest float_str cfg dry_run allow_fractional)
    as [(e & w1 & _ & E) | (acct & w1 & evs & res & w' & _ & E & Hl)];
    rewrite E; simpl; intro Hr; [discriminate|]. subst res.
  apply (loop_report_order _ _ _ _ _ _ _ _ _ Hl []); simpl;
    constructor || reflexivity.
Qed.

Lemma report_keeps_configured_order_witness :
  subseq ["BBB"] ["AAA"; "BBB"].
Proof.
  destruct (report_keeps_configured_order (scripted scripts_all_up) decimal_str
              cfg_A false true
              {| account := "A";
                 submitted := [OrderEntry "AAA" "order-AAA"];
                 skipped := [below_min_entry decimal_str cfg_A
                               {| equity := 10000; cash := 2000 |} rule_tiny] |})
    as (_ & Hskip & _).
  - reflexivity.
  - exact Hskip.
Defined.

(** ** Failures of a live submission *)

(** X7: an [APIError] raised by [submit_order] costs only that rule: the rule
    is recorded as skipped with the error's message, the failure is logged,
    and the loop goes on with the next rule from the state the failed call
    left. *)
Theorem api_error_skips_one_rule {W : Type} (rest : Client W)
  (float_str : Q -> string) (cfg : AccountConfig.t) (acct : Account)
  (alloc : OrderAllocation.t) (allocs : list OrderAllocation.t)
  (summary : AccountSummary) (s : RunState W) (msg : string) (w1 : W) :
  OrderAllocation.min_notional alloc <= resolved_notional cfg acct alloc ->
  submit_order rest
    (set_notional (base_payload alloc)
       (py_round2 (resolved_notional cfg acct alloc))) (world s)
    = (Raised (APIError msg), w1) ->
  process_allocations rest float_str cfg false true acct (alloc :: allocs)
    summary s
  = process_allocations rest float_str cfg false true acct allocs
      (add_skipped summary
         {| sk_symbol := OrderAllocation.symbol alloc; sk_reason := msg |})
      (extended s w1
         [log_record cfg false alloc
            (set_notional (base_payload alloc)
               (py_round2 (resolved_notional cfg acct alloc)))
            (resolved_notional cfg acct alloc);
          EvSubmitOrder
            (set_notional (base_payload alloc)
               (py_round2 (resolved_notional cfg acct alloc)));
          EvLogException (OrderAllocation.symbol alloc)
            (AccountConfig.name cfg) msg]).
Proof.
  intros Hmin Hsub.
  rewrite loop_cons, (step_fractional _ _ _ _ _ _ _ _ Hmin),
    dispatch_live_unfold, Hsub.
  reflexivity.
Qed.

Lemma api_error_skips_one_rule_witness :
  fst (process_allocations (scripted (fun _ => rejecting 10000 2000 200))
         decimal_str cfg_A false true acct_10k [rule_5pct; rule_tiny]
         (empty_summary cfg_A) (start_state (rejecting 10000 2000 200)))
  = Returned
      {| account := "A"; submitted := [];
         skipped := [ {| sk_symbol := "AAA";
                         sk_reason := "insufficient buying power" |};
                      {| sk_symbol := "BBB";
                         sk_reason := "notional 0.50 below min 1.0" |} ] |}.
Proof.
  rewrite (api_error_skips_one_rule (scripted (fun _ => rejecting 10000 2000 200))
             decimal_str cfg_A acct_10k rule_5pct [rule_tiny]
             (empty_summary cfg_A) (start_state (rejecting 10000 2000 200))
             "insufficient buying power" (rejecting 10000 2000 200)).
  - reflexivity.
  - discriminate.
  - reflexivity.
Defined.

(** X8: any other exception raised by [submit_order] is not caught: the loop
    stops at that rule, the remaining rules are neither priced nor sent, and
    the account task ends with that exception instead of a report. *)
Theorem other_submit_error_aborts_account {W : Type} (rest : Client W)
  (float_str : Q -> string) (cfg : AccountConfig.t) (acct : Account)
  (alloc : OrderAllocation.t) (allocs : list OrderAllocation.t)
  (summary : AccountSummary) (s : RunState W) (e : Exception) (w1 : W) :
  OrderAllocation.min_notional alloc <= resolved_notional cfg acct alloc ->
  (forall msg, e <> APIError msg) ->
  submit_order rest
    (set_notional (base_payload alloc)
       (py_round2 (resolved_notional cfg acct alloc))) (world s)
    = (Raised e, w1) ->
  process_allocations rest float_str cfg false true acct (alloc :: allocs)
    summary s
  = (Raised e,
     extended s w1
       [log_record cfg false alloc
          (set_notional (base_payload alloc)
             (py_round2 (resolved_notional cfg acct alloc)))
          (resolved_notional cfg acct alloc);
        EvSubmitOrder
          (set_notional (base_payload alloc)
             (py_round2 (resolved_notional cfg acct alloc)))]).
Proof.
  intros Hmin Hne Hsub.
  rewrite loop_cons, (step_fractional _ _ _ _ _ _ _ _ Hmin),
    dispatch_live_unfold, Hsub.
  destruct e as [msg|msg|]; [destruct (Hne msg eq_refl) | reflexivity
                            | reflexivity].
Qed.

Lemma other_submit_error_aborts_account_witness :
  fst (process_allocations (scripted (fun _ => unreachable))
         decimal_str cfg_A false true acct_10k [rule_5pct; rule_tiny]
         (empty_summary cfg_A) (start_state unreachable))
  = Raised (OtherError "connection refused").
Proof.
  rewrite (other_submit_error_aborts_account (scripted (fun _ => unreachable))
             decimal_str cfg_A acct_10k rule_5pct [rule_tiny]
             (empty_summary cfg_A) (start_state unreachable)
             (OtherError "connection refused") unreachable).
  - reflexivity.
  - discriminate.
  - discriminate.
  - reflexivity.
Defined.

(** X9: in whole-share mode a price of zero is fatal for the account: the
    floor division raises [ZeroDivisionError], which nothing catches, so the
    loop stops at that rule. *)
Theorem zero_price_aborts_account {W : Type} (rest : Client W)
  (float_str : Q -> string) (cfg : AccountConfig.t) (dry_run : bool)
  (acct : Account) (alloc : OrderAllocation.t)
  (allocs : list OrderAllocation.t) (summary : AccountSummary)
  (s : RunState W) (price : Q) (w1 : W) :
  OrderAllocation.min_notional alloc <= resolved_notional cfg acct alloc ->
  get_latest_trade rest (OrderAllocation.symbol alloc) (world s)
    = (Returned price, w1) ->
  price == 0 ->
  process_allocations rest float_str cfg dry_run false acct (alloc :: allocs)
    summary s
  = (Raised ZeroDivisionError, after_lookup alloc s w1).
Proof.
  intros Hmin Hlook Hz.
  apply Qltb_ge in Hmin.
  rewrite loop_cons, (step_whole_share_unfold _ _ _ _ _ _ _ _ Hmin), Hlook.
  unfold py_floordiv. apply Qeq_bool_iff in Hz. rewrite Hz. reflexivity.
Qed.

Lemma zero_price_aborts_account_witness :
  fst (process_allocations (scripted (fun _ => healthy 10000 2000 0))
         decimal_str cfg_A true false acct_10k [rule_5pct; rule_tiny]
         (empty_summary cfg_A) (start_state (healthy 10000 2000 0)))
  = Raised ZeroDivisionError.
Proof.
  rewrite (zero_price_aborts_account (scripted (fun _ => healthy 10000 2000 0))
             decimal_str cfg_A true acct_10k rule_5pct [rule_tiny]
             (empty_summary cfg_A) (start_state (healthy 10000 2000 0))
             0 (healthy 10000 2000 0)).
  - reflexivity.
  - discriminate.
  - reflexivity.
  - reflexivity.
Defined.

(** ** The cap *)

Lemma py_min_le_l (a b : Q) : py_min a b <= a.
Proof.
  unfold py_min. destruct (Qltb b a) eqn:E.
  - apply Qltb_lt in E. apply Qlt_le_weak. exact E.
  - apply Qle_refl.
Qed.

Lemma py_min_le_r (a b : Q) : py_min a b <= b.
Proof.
  unfold py_min. destruct (Qltb b a) eqn:E.
  - apply Qle_refl.
  - apply Qltb_ge in E. exact E.
Qed.

(** X10: the cap can only lower an order: the resolved notional never exceeds
    the raw percentage of the reference value, and it never exceeds a cap
    that is set to a nonzero value. *)
Theorem cap_never_raises (cfg : AccountConfig.t) (acct : Account)
  (alloc : OrderAllocation.t) :
  resolved_notional cfg acct alloc <= raw_notional cfg acct alloc /\
  forall m, AccountConfig.max_notional_per_order cfg = Some m ->
            ~ m == 0 ->
            resolved_notional cfg acct alloc <= m.
Proof.
  unfold resolved_notional. split.
  - destruct (AccountConfig.max_notional_per_order cfg) as [m|];
      [|apply Qle_refl].
    destruct (truthy m); [apply py_min_le_l | apply Qle_refl].
  - intros m -> Hm. apply truthy_nonzero in Hm. rewrite Hm.
    apply py_min_le_r.
Qed.

Lemma cap_never_raises_witness :
  resolved_notional cfg_cap_450 acct_10k rule_5pct <= 450.
Proof.
  destruct (cap_never_raises cfg_cap_450 acct_10k rule_5pct) as [_ Hcap].
  apply Hcap.
  - reflexivity.
  - discriminate.
Defined.

(** ** Which failure the fan-out reports *)

Lemma first_raised_skips {A : Type} (pre post : list nat) (i : nat)
  (outs : list (Outcome A)) (e : Exception) :
  (forall j e', In j pre -> nth_error outs j <> Some (Raised e')) ->
  nth_error outs i = Some (Raised e) ->
  first_raised (pre ++ i :: post) outs = Some e.
Proof.
  intros Hpre Hi. induction pre as [|j pre IH]; simpl.
  - rewrite Hi. reflexivity.
  - destruct (nth_error outs j) as [[a|e']|] eqn:E.
    + apply IH. intros j0 e0 Hin. apply Hpre. right. exact Hin.
    + exfalso. apply (Hpre j e' (or_introl eq_refl) E).
    + apply IH. intros j0 e0 Hin. apply Hpre. right. exact Hin.
Qed.

(** X12: when account tasks fail, the fan-out raises the exception of the
    failing task that completes first: if the task of account [i] raises [e]
    and every task completing before it returned, the fan-out raises [e],
    whatever the tasks completing later do. *)
Theorem fan_out_raises_first_failure {W : Type} (rest : Client W)
  (float_str : Q -> string) (pre post : list nat) (i : nat)
  (accounts : list AccountConfig.t) (dry_run allow_fractional : bool)
  (cfg : AccountConfig.t) (e : Exception) :
  (forall j cfg', In j pre -> nth_error accounts j = Some cfg' ->
     exists r, task_outcome rest float_str dry_run allow_fractional cfg'
               = Returned r) ->
  nth_error accounts i = Some cfg ->
  task_outcome rest float_str dry_run allow_fractional cfg = Raised e ->
  fan_out_orders rest float_str (pre ++ i :: post) accounts dry_run
    allow_fractional = Raised e.
Proof.
  intros Hpre Hi He. unfold fan_out_orders, gather.
  change (fun cfg0 => fst (_submit_orders_for_account rest float_str cfg0
                             dry_run allow_fractional))
    with (task_outcome rest float_str dry_run allow_fractional).
  rewrite (first_raised_skips pre post i _ e); [reflexivity| |].
  - intros j e' Hin Hj. rewrite nth_error_map in Hj.
    destruct (nth_error accounts j) as [cfg'|] eqn:Ej; [|discriminate].
    destruct (Hpre j cfg' Hin Ej) as [r Hr]. simpl in Hj. congruence.
  - rewrite nth_error_map, Hi. simpl. rewrite He. reflexivity.
Qed.

Lemma fan_out_raises_first_failure_witness :
  fan_out_orders (scripted scripts_B_down) decimal_str
    ([2%nat; 0%nat] ++ 1%nat :: [])%list
    [cfg_A; cfg_B; cfg_C] true true
  = Raised (OtherError "connection refused").
Proof.
  apply (fan_out_raises_first_failure (scripted scripts_B_down) decimal_str
           [2; 0]%nat [] 1%nat [cfg_A; cfg_B; cfg_C] true true cfg_B).
  - intros j cfg' [<-|[<-|[]]] Hj; inversion Hj; subst;
      eexists; vm_compute; reflexivity.
  - reflexivity.
  - reflexivity.
Defined.

(** * Loading the configuration *)

Section LoaderFacts.
Variable parse_float : string -> option Q.

Lemma rmap_ok {A B : Type} (f : A -> Result B) (l : list A) (ys : list B) :
  rmap f l = Ok ys <-> Forall2 (fun x y => f x = Ok y) l ys.
Proof.
  revert ys. induction l as [|x l IH]; intro ys; simpl.
  - split; intro H.
    + inversion H. constructor.
    + inversion H. reflexivity.
  - unfold rbind. destruct (f x) as [y|e] eqn:Ex.
    + destruct (rmap f l) as [ys0|e0].
      * split; intro H.
        -- inversion H; subst. constructor; [exact Ex|]. apply IH. reflexivity.
        -- inversion H as [|x0 y0 l0 ys1 Hxy Htl]; subst.
           rewrite Ex in Hxy. inversion Hxy; subst.
           apply IH in Htl. inversion Htl. reflexivity.
      * split; intro H; [discriminate|].
        inversion H as [|x0 y0 l0 ys1 Hxy Htl]; subst.
        apply IH in Htl. discriminate.
    + split; intro H; [discriminate|].
      inversion H as [|x0 y0 l0 ys1 Hxy Htl]; subst. congruence.
Qed.

Lemma rmap_first_failure {A B : Type} (f : A -> Result B)
  (pre post : list A) (x : A) (e : LoadError) :
  Forall (fun a => exists b, f a = Ok b) pre ->
  f x = Fail e ->
  rmap f (pre ++ x :: post) = Fail e.
Proof.
  intros Hpre Hx. induction Hpre as [|a pre [b Hb] _ IH]; simpl.
  - rewrite Hx. reflexivity.
  - rewrite Hb. simpl. rewrite IH. reflexivity.
Qed.

(** X13: a document without accounts is refused: a mapping that has no
    "accounts" key, or whose "accounts" is an empty list, makes [load_config]
    raise [ValueError]; a document that is not a mapping at all (an empty
    file gives [None]) makes it raise [AttributeError]. *)
Theorem load_config_needs_accounts (raw : PyVal) :
  (forall d, raw = PyDict d ->
     dict_lookup d "accounts" = None \/
     dict_lookup d "accounts" = Some (PyList []) ->
     load_config parse_float raw
     = Fail (ValueError "No accounts found in config. Check the YAML structure.")) /\
  ((forall d, raw <> PyDict d) ->
   load_config parse_float raw = Fail AttributeError).
Proof.
  split.
  - intros d -> [H|H]; unfold load_config; simpl; rewrite H; reflexivity.
  - intro Hnd. destruct raw; try reflexivity.
    exfalso. eapply Hnd. reflexivity.
Qed.

Lemma load_account_fields (entry : PyVal) (acc : LoadedAccount) :
  load_account parse_float entry = Ok acc ->
  py_getitem entry "name" = Ok (lc_name acc) /\
  py_getitem entry "key_id" = Ok (lc_key_id acc) /\
  py_getitem entry "secret_key" = Ok (lc_secret_key acc) /\
  exists items_v items,
    py_get entry "allocations" (PyList []) = Ok items_v /\
    py_iter items_v = Ok items /\
    Forall2 (fun item la =>
               py_getitem item "symbol" = Ok (la_symbol la) /\
               exists pct, py_getitem item "percentage" = Ok pct /\
                           py_float parse_float pct = Ok (la_percentage la))
      items (lc_allocations acc).
Proof.
  unfold load_account, rbind.
  destruct (py_get entry "allocations" (PyList [])) as [items_v|] eqn:E1;
    [|discriminate].
  destruct (py_iter items_v) as [items|] eqn:E2; [|discriminate].
  destruct (rmap (load_allocation parse_float) items) as [las|] eqn:E3;
    [|discriminate].
  destruct (py_getitem entry "name") as [nm|]; [|discriminate].
  destruct (py_getitem entry "key_id") as [k|]; [|discriminate].
  destruct (py_getitem entry "secret_key") as [sk|]; [|discriminate].
  destruct (py_get entry "base_url" _) as [bu|]; [|discriminate].
  destruct (py_get entry "allocation_basis" _) as [ab|]; [|discriminate].
  destruct (py_get entry "max_notional_per_order" _) as [mx|]; [|discriminate].
  intro H. inversion H; subst; simpl.
  split; [reflexivity|]. split; [reflexivity|]. split; [reflexivity|].
  exists items_v, items. split; [reflexivity|]. split; [exact E2|].
  apply rmap_ok in E3. clear E1 E2 H.
  induction E3 as [|item la items las Hit _ IH]; constructor; [|exact IH].
  unfold load_allocation, rbind in Hit.
  destruct (py_getitem item "symbol") as [sym|]; [|discriminate].
  destruct (py_getitem item "percentage") as [pct|]; [|discriminate].
  destruct (py_float parse_float pct) as [q|] eqn:Eq; [|discriminate].
  destruct (py_get item "side" _); [|discriminate].
  destruct (py_get item "time_in_force" _); [|discriminate].
  destruct (py_get item "allocation_basis" _); [|discriminate].
  destruct (py_get item "min_notional" _) as [mn|]; [|discriminate].
  destruct (py_float parse_float mn); [|discriminate].
  inversion Hit; subst; simpl.
  split; [reflexivity|]. exists pct. split; [reflexivity | exact Eq].
Qed.

(** X14: a successful load loses nothing and reorders nothing: the result is
    not empty, it holds one account per entry of the "accounts" list, in
    document order, with the entry's own name and credentials, and each
    account holds one allocation per item of its "allocations" list, in
    order, with the item's symbol and its percentage converted by
    [float]. *)
Theorem load_config_keeps_the_document (raw : PyVal)
  (accounts : list LoadedAccount) :
  load_config parse_float raw = Ok accounts ->
  accounts <> [] /\
  exists accounts_v entries,
    py_get raw "accounts" (PyList []) = Ok accounts_v /\
    py_iter accounts_v = Ok entries /\
    Forall2 (fun entry acc =>
               py_getitem entry "name" = Ok (lc_name acc) /\
               py_getitem entry "key_id" = Ok (lc_key_id acc) /\
               py_getitem entry "secret_key" = Ok (lc_secret_key acc) /\
               exists items_v items,
                 py_get entry "allocations" (PyList []) = Ok items_v /\
                 py_iter items_v = Ok items /\
                 Forall2 (fun item la =>
                            py_getitem item "symbol" = Ok (la_symbol la) /\
                            exists pct,
                              py_getitem item "percentage" = Ok pct /\
                              py_float parse_float pct = Ok (la_percentage la))
                   items (lc_allocations acc))
      entries accounts.
Proof.
  unfold load_config, rbind.
  destruct (py_get raw "accounts" (PyList [])) as [accounts_v|] eqn:E1;
    [|discriminate].
  destruct (py_iter accounts_v) as [entries|] eqn:E2; [|discriminate].
  destruct (rmap (load_account parse_float) entries) as [accs|] eqn:E3;
    [|discriminate].
  destruct accs as [|a accs]; [discriminate|].
  intro H. inversion H; subst. split; [discriminate|].
  exists accounts_v, entries. split; [reflexivity|]. split; [exact E2|].
  apply rmap_ok in E3. clear E1 E2 H.
  induction E3 as [|entry acc entries accs0 He _ IH]; constructor;
    [|exact IH].
  apply load_account_fields. exact He.
Qed.

(** X15: the load is all or nothing, and it reports the first bad entry: when
    the entries before it load and one entry fails, [load_config] raises that
    entry's exception and returns no account; an entry that is not a mapping
    fails with [AttributeError]. *)
Theorem load_config_fails_on_first_bad_entry (d : list (PyKey * PyVal))
  (pre post : list PyVal) (entry : PyVal) (e : LoadError) :
  dict_lookup d "accounts" = Some (PyList (pre ++ entry :: post)) ->
  Forall (fun x => exists acc, load_account parse_float x = Ok acc) pre ->
  (load_account parse_float entry = Fail e ->
   load_config parse_float (PyDict d) = Fail e) /\
  ((forall d', entry <> PyDict d') ->
   load_config parse_float (PyDict d) = Fail AttributeError).
Proof.
  intros Hd Hpre.
  assert (Hfail : forall e0, load_account parse_float entry = Fail e0 ->
                             load_config parse_float (PyDict d) = Fail e0).
  { intros e0 He. unfold load_config. simpl. rewrite Hd. simpl.
    rewrite (rmap_first_failure _ _ _ _ _ Hpre He). reflexivity. }
  split; [apply Hfail|].
  intro Hnd. apply Hfail.
  destruct entry; try reflexivity. exfalso. eapply Hnd. reflexivity.
Qed.
End LoaderFacts.

Lemma load_config_needs_accounts_witness :
  load_config no_numeric_strings (PyDict [(KStr "accounts", PyList [])])
  = Fail (ValueError "No accounts found in config. Check the YAML structure.") /\
  load_config no_numeric_strings PyNone = Fail AttributeError.
Proof.
  split.
  - destruct (load_config_needs_accounts no_numeric_strings
                (PyDict [(KStr "accounts", PyList [])])) as [H _].
    apply (H [(KStr "accounts", PyList [])] eq_refl).
    right. reflexivity.
  - destruct (load_config_needs_accounts no_numeric_strings PyNone) as [_ H].
    apply H. intros d Hd. discriminate.
Defined.

Lemma load_config_keeps_the_document_witness :
  exists accounts,
    load_config no_numeric_strings doc_one_account = Ok accounts /\
    accounts <> [].
Proof.
  eexists. split; [reflexivity|].
  apply (load_config_keeps_the_document no_numeric_strings doc_one_account).
  reflexivity.
Defined.

Lemma load_config_fails_on_first_bad_entry_witness :
  load_config no_numeric_strings doc_nameless_entry = Fail (KeyError "name").
Proof.
  destruct (load_config_fails_on_first_bad_entry no_numeric_strings
              [(KStr "accounts",
                PyList [entry_A; PyDict [(KStr "key_id", PyStr "key-B")];
                        entry_A])]
              [entry_A] [entry_A] (PyDict [(KStr "key_id", PyStr "key-B")])
              (KeyError "name")) as [H _].
  - reflexivity.
  - constructor; [|constructor]. eexists. reflexivity.
  - apply H. reflexivity.
Defined.

(** X16: an optional key is defaulted only when it is absent: an item that has
    its symbol and a numeric percentage and none of the optional keys loads
    with side "buy", time in force "day", no basis override and a minimum
    notional of 1.0; but an item whose "min_notional" is present and null is
    not defaulted, its load raises [TypeError]. *)
Theorem optional_keys_default_only_when_absent
  (parse_float : string -> option Q) (d : list (PyKey * PyVal))
  (sym pct : PyVal) (q : Q) :
  dict_lookup d "symbol" = Some sym ->
  dict_lookup d "percentage" = Some pct ->
  py_float parse_float pct = Ok q ->
  (dict_lookup d "side" = None ->
   dict_lookup d "time_in_force" = None ->
   dict_lookup d "allocation_basis" = None ->
   dict_lookup d "min_notional" = None ->
   load_allocation parse_float (PyDict d)
   = Ok {| la_symbol := sym; la_percentage := q;
           la_side := PyStr "buy"; la_time_in_force := PyStr "day";
           la_allocation_basis := PyNone; la_min_notional := 1 |}) /\
  (dict_lookup d "min_notional" = Some PyNone ->
   load_allocation parse_float (PyDict d) = Fail TypeError).
Proof.
  intros Hs Hp Hq. split.
  - intros H1 H2 H3 H4. unfold load_allocation. simpl.
    rewrite Hs, Hp. simpl. rewrite Hq. simpl.
    rewrite H1, H2, H3, H4. reflexivity.
  - intro Hn. unfold load_allocation. simpl.
    rewrite Hs, Hp. simpl. rewrite Hq. simpl. rewrite Hn. reflexivity.
Qed.

Lemma optional_keys_default_only_when_absent_witness :
  load_allocation no_numeric_strings item_null_min = Fail TypeError.
Proof.
  destruct (optional_keys_default_only_when_absent no_numeric_strings
              [(KStr "symbol", PyStr "AAA");
               (KStr "percentage", PyFloat (5 # 100));
               (KStr "min_notional", PyNone)]
              (PyStr "AAA") (PyFloat (5 # 100)) (5 # 100))
    as [_ H].
  - reflexivity.
  - reflexivity.
  - reflexivity.
  - apply H. reflexivity.
Defined.

(** * The entry point *)

Lemma gather_raised_in {A : Type} (completion : list nat)
  (outs : list (Outcome A)) (e : Exception) :
  gather completion outs = Raised e -> In (Raised e) outs.
Proof.
  unfold gather. destruct (first_raised completion outs) as [e1|] eqn:F.
  - intro H. inversion H; subst. apply (first_raised_in _ _ _ F).
  - apply collect_raised.
Qed.

(** X17: [main] exits with status 1 exactly when the task of some configured
    account raised; otherwise it logs one summary line per account, in the
    order of the configuration, bearing the account's name and two counts
    that add up to the number of its allocations. The whole-share mode is
    chosen by [--disallow-fractional]. *)
Theorem main_exits_or_summarises {W : Type} (rest : Client W)
  (float_str : Q -> string) (completion : list nat)
  (accounts : list AccountConfig.t) (dry_run disallow_fractional : bool) :
  (main_after_load rest float_str completion accounts dry_run
     disallow_fractional = SystemExit 1
   <-> exists cfg e,
         In cfg accounts /\
         task_outcome rest float_str dry_run (negb disallow_fractional) cfg
         = Raised e) /\
  (forall code,
     main_after_load rest float_str completion accounts dry_run
       disallow_fractional = SystemExit code -> code = 1%Z) /\
  (forall summary_lines,
     main_after_load rest float_str completion accounts dry_run
       disallow_fractional = Completed summary_lines ->
     Forall2 (fun cfg line =>
                fst (fst line) = AccountConfig.name cfg /\
                (snd (fst line) + snd line
                 = List.length (AccountConfig.allocations cfg))%nat)
       accounts summary_lines).
Proof.
  unfold main_after_load.
  destruct (fan_out_orders rest float_str completion accounts dry_run
              (negb disallow_fractional)) as [summaries|e] eqn:E.
  - split; [|split].
    + split; [discriminate|].
      intros (cfg & e & Hin & He). exfalso.
      assert (Hout : In (Raised e)
                (map (task_outcome rest float_str dry_run
                        (negb disallow_fractional)) accounts)).
      { apply in_map_iff. exists cfg. split; assumption. }
      destruct (gather_raises completion _ _ Hout) as [e' [Hg _]].
      unfold fan_out_orders in E.
      change (fun cfg0 => fst (_submit_orders_for_account rest float_str cfg0
                                 dry_run (negb disallow_fractional)))
        with (task_outcome rest float_str dry_run (negb disallow_fractional))
        in E.
      congruence.
    + discriminate.
    + intros lines H. inversion H; subst.
      apply fan_out_returned in E. apply fan_out_aligned in E.
      clear H. induction E as [|cfg r accs reps H0 _ IH]; simpl;
        [constructor|].
      constructor; [|exact IH].
      destruct (task_counts _ _ _ _ _ _ H0) as [Hn Hc].
      split; [exact Hn | exact Hc].
  - split; [|split].
    + split; [|reflexivity]. intros _.
      apply gather_raised_in in E. apply in_map_iff in E.
      destruct E as (cfg & He & Hin). exists cfg, e. split; assumption.
    + intros code H. inversion H. reflexivity.
    + discriminate.
Qed.

Lemma main_exits_or_summarises_witness :
  main_after_load (scripted scripts_B_down) decimal_str [0; 1; 2]%nat
    [cfg_A; cfg_B; cfg_C] true false = SystemExit 1.
Proof.
  apply (main_exits_or_summarises (scripted scripts_B_down) decimal_str
           [0; 1; 2]%nat [cfg_A; cfg_B; cfg_C] true false).
  exists cfg_B, (OtherError "connection refused").
  split; [right; left; reflexivity | reflexivity].
Defined.
